(** * Booking form: availability, coupons, pricing and submission

    A shallow embedding of the booking dialog of the apartment storefront
    (components/BookingForm.tsx, its coupon-aware variant, and the coupon
    box of BookingCalendar), together with the properties its specification
    states about it.

    Conventions of the embedding.
    - A JavaScript [Date] is its time value: an integer number of
      milliseconds since the epoch ([Z]).  Calendar days are taken in a zone
      with a fixed offset, so that every local day lasts [msPerDay]
      milliseconds and local midnight is a multiple of [msPerDay]; invalid
      dates (NaN time values) are not represented.
    - React state is a record; a handler reads the snapshot it was created
      with and its [setX(v)] calls are applied in program order.
    - Exceptions are explicit: a computation that can throw returns a
      [Completion]; [try]/[catch] is a match on it.
    - External collaborators (the reservation store, the payment endpoint)
      are inputs of the handlers: the response each would give.
    - In the state of the form prices are exact rationals ([Q]) and
      [Math.round(x)] is the floor of [x + 1/2]; the numbers of the running
      program are IEEE 754 doubles, and [Binary64] and [Binary64Form] give the
      price computation and the amounts of the request over them. *)

From Stdlib Require Import ZArith List Bool Lia String QArith Qround Lqa Floats.
From Stdlib Require Uint63.
Import ListNotations.

Local Open Scope Z_scope.

(** ** date-fns *)

Module DateFns.

Definition Date := Z.

Definition msPerDay : Z := 86400000.

(** Index of the calendar day a time value falls in. *)
Definition dayNumber (t : Date) : Z := t / msPerDay.

(** [startOfDay]: the same day at 00:00:00.000. *)
Definition startOfDay (t : Date) : Date := dayNumber t * msPerDay.

(** [isSameDay(a, b)]: [+startOfDay(a) === +startOfDay(b)]. *)
Definition isSameDay (a b : Date) : bool := startOfDay a =? startOfDay b.

(** [addDays(d, n)]. *)
Definition addDays (d : Date) (n : Z) : Date := d + n * msPerDay.

(** [format(d, 'yyyy-MM-dd')]: the text names the calendar day and nothing
    else, so it is represented by the day's index. *)
Definition DayKey := Z.
Definition format_yyyy_MM_dd (d : Date) : DayKey := dayNumber d.

(** [parseISO] of a date-only text: midnight of that day. *)
Definition parseISO_day (k : DayKey) : Date := k * msPerDay.

(** The loop of [eachDayOfInterval]:
    [while (+currentDate <= endTime) { dates.push(currentDate);
       currentDate.setDate(currentDate.getDate() + 1);
       currentDate.setHours(0, 0, 0, 0) }].
    [fuel] bounds the number of iterations. *)
Fixpoint daysLoop (fuel : nat) (currentDate endTime : Date) : list Date :=
  match fuel with
  | O => []
  | S fuel' =>
      if currentDate <=? endTime
      then currentDate :: daysLoop fuel' (startOfDay (addDays currentDate 1)) endTime
      else []
  end.

(** [eachDayOfInterval({start, end})].  [None] stands for the [RangeError]
    raised when [start] is after [end]. *)
Definition eachDayOfInterval (start end_ : Date) : option (list Date) :=
  if end_ <? start then None
  else Some (daysLoop (Z.to_nat (dayNumber end_ - dayNumber start + 1))
                      (startOfDay start) end_).

(** [differenceInDays(left, right)]: full days between the two, truncated
    toward zero.  date-fns counts them on the local calendar; with days of
    a fixed length, as here, that is the quotient below, and where the
    clock changes between the two dates the count of the library can be one
    more or one less. *)
Definition differenceInDays (left right : Date) : Z :=
  Z.quot (left - right) msPerDay.

End DateFns.
Import DateFns.

(** ** JavaScript values used by the form *)

(** Outcome of a block that can throw. *)
Inductive Completion (A : Type) : Type :=
| Normal (a : A)
| Thrown (message : string).
Arguments Normal {A} a.
Arguments Thrown {A} message.

Definition bindC {A B} (c : Completion A) (k : A -> Completion B) : Completion B :=
  match c with
  | Normal a => k a
  | Thrown m => Thrown m
  end.

Notation "x <- c ;; k" := (bindC c (fun x => k))
  (at level 61, c at next level, right associativity).

(** [Array.from(new Set(xs))]: the distinct elements in order of first
    insertion. *)
Definition setAdd (s : list DayKey) (k : DayKey) : list DayKey :=
  if existsb (Z.eqb k) s then s else s ++ [k].

Definition newSet (xs : list DayKey) : list DayKey := fold_left setAdd xs [].

(** Truthiness of an optional string: [undefined] and [''] are falsy. *)
Definition truthy (s : option string) : bool :=
  match s with
  | None => false
  | Some s' => negb (String.eqb s' EmptyString)
  end.

(** [s.trim()], for the blanks of ASCII (tab, line feed, vertical tab,
    form feed, carriage return, space); [String.prototype.trim] strips the
    other blanks of Unicode as well. *)
Definition isWhite (c : Ascii.ascii) : bool :=
  let n := Ascii.nat_of_ascii c in
  (Nat.eqb n 32 || Nat.eqb n 9 || Nat.eqb n 10 || Nat.eqb n 11 || Nat.eqb n 12 || Nat.eqb n 13)%bool.

Fixpoint trimStart (s : string) : string :=
  match s with
  | EmptyString => EmptyString
  | String c s' => if isWhite c then trimStart s' else s
  end.

Fixpoint trimEnd (s : string) : string :=
  match s with
  | EmptyString => EmptyString
  | String c s' =>
      match trimEnd s' with
      | EmptyString => if isWhite c then EmptyString else String c EmptyString
      | t => String c t
      end
  end.

Definition trim (s : string) : string := trimEnd (trimStart s).

(** [Math.round(x)]: the nearest integer, ties toward +infinity. *)
Definition Math_round (x : Q) : Z := Qfloor (x + (1 # 2))%Q.

(** ** Data of the form *)

Local Open Scope string_scope.

(** [Apartment] of ../types, with the price column as the coupon-aware form
    reads it ([price_per_night]; [pricePerNight] in BookingForm.tsx). *)
Record Apartment := {
  id : string;
  name : string;
  price_per_night : Q
}.

(** [Partial<BookingDetails>]: every field but the apartment may be unset. *)
Record BookingDetails := {
  apartmentId : string;
  checkIn : option Date;
  checkOut : option Date;
  guestName : option string;
  guestEmail : option string
}.

(** Modelled from the spec: the [Coupon] type of ../types, which the form
    imports and whose declaration is missing ("code (unique string key),
    discountPercent (0-100), isActive flag, expiresAt (timestamp)"), under
    the column names the queries use. *)
Record Coupon := {
  code : string;
  discount_percent : Q;
  is_active : bool;
  expires_at : Date
}.

(** A row of [bookings] as [select('check_in, check_out')] returns it, with
    the two texts already read by [parseISO]. *)
Record BookingRow := {
  check_in : Date;
  check_out : Date
}.

(** What a supabase query resolves to: [{ data, error }]. *)
Record PostgrestResponse (A : Type) := {
  data : option A;
  error : option string
}.
Arguments data {A} _.
Arguments error {A} _.

(** The component state of the coupon-aware form ([useState] cells).
    BookingForm.tsx has the first four cells only and the same handlers for
    them.  The [error] cell is [formError] here, [error] being the field of
    a query response. *)
Record FormState := {
  bookingDetails : BookingDetails;
  isLoading : bool;
  formError : option string;
  bookedDates : list Date;
  couponCode : string;
  appliedCoupon : option Coupon;
  isValidatingCoupon : bool
}.

Definition setBookingDetails (v : BookingDetails) (st : FormState) : FormState :=
  {| bookingDetails := v; isLoading := isLoading st; formError := formError st;
     bookedDates := bookedDates st; couponCode := couponCode st;
     appliedCoupon := appliedCoupon st; isValidatingCoupon := isValidatingCoupon st |}.

Definition setIsLoading (v : bool) (st : FormState) : FormState :=
  {| bookingDetails := bookingDetails st; isLoading := v; formError := formError st;
     bookedDates := bookedDates st; couponCode := couponCode st;
     appliedCoupon := appliedCoupon st; isValidatingCoupon := isValidatingCoupon st |}.

Definition setError (v : option string) (st : FormState) : FormState :=
  {| bookingDetails := bookingDetails st; isLoading := isLoading st; formError := v;
     bookedDates := bookedDates st; couponCode := couponCode st;
     appliedCoupon := appliedCoupon st; isValidatingCoupon := isValidatingCoupon st |}.

Definition setBookedDates (v : list Date) (st : FormState) : FormState :=
  {| bookingDetails := bookingDetails st; isLoading := isLoading st; formError := formError st;
     bookedDates := v; couponCode := couponCode st;
     appliedCoupon := appliedCoupon st; isValidatingCoupon := isValidatingCoupon st |}.

Definition setCouponCode (v : string) (st : FormState) : FormState :=
  {| bookingDetails := bookingDetails st; isLoading := isLoading st; formError := formError st;
     bookedDates := bookedDates st; couponCode := v;
     appliedCoupon := appliedCoupon st; isValidatingCoupon := isValidatingCoupon st |}.

Definition setAppliedCoupon (v : option Coupon) (st : FormState) : FormState :=
  {| bookingDetails := bookingDetails st; isLoading := isLoading st; formError := formError st;
     bookedDates := bookedDates st; couponCode := couponCode st;
     appliedCoupon := v; isValidatingCoupon := isValidatingCoupon st |}.

Definition setIsValidatingCoupon (v : bool) (st : FormState) : FormState :=
  {| bookingDetails := bookingDetails st; isLoading := isLoading st; formError := formError st;
     bookedDates := bookedDates st; couponCode := couponCode st;
     appliedCoupon := appliedCoupon st; isValidatingCoupon := v |}.

(** The state a freshly mounted form starts from. *)
Definition initialState (apartment : Apartment) : FormState :=
  {| bookingDetails := {| apartmentId := id apartment; checkIn := None; checkOut := None;
                          guestName := None; guestEmail := None |};
     isLoading := false; formError := None; bookedDates := [];
     couponCode := EmptyString; appliedCoupon := None; isValidatingCoupon := false |}.

(** ** Loading the booked dates *)

(** [data.forEach(booking => { ...; allDates.push(...daysInRange) })]. *)
Fixpoint pushAllDays (allDates : list Date) (rows : list BookingRow)
  : Completion (list Date) :=
  match rows with
  | [] => Normal allDates
  | booking :: rest =>
      match eachDayOfInterval (check_in booking) (check_out booking) with
      | None => Thrown "Invalid interval"
      | Some daysInRange => pushAllDays (allDates ++ daysInRange)%list rest
      end
  end.

(** The [try] block of [fetchBookedDates]. *)
Definition fetchBookedDates_try (resp : PostgrestResponse (list BookingRow))
  : Completion (list Date) :=
  match error resp with
  | Some e => Thrown e
  | None =>
      match data resp with
      | None => Thrown "Cannot read properties of null"
      | Some rows =>
          allDates <- pushAllDays [] rows ;;
          Normal (map parseISO_day (newSet (map format_yyyy_MM_dd allDates)))
      end
  end.

Definition fetchBookedDates (resp : PostgrestResponse (list BookingRow))
                            (st : FormState) : FormState :=
  match fetchBookedDates_try resp with
  | Normal uniqueDates => setBookedDates uniqueDates st
  | Thrown _ => setError (Some "Failed to fetch available dates") st
  end.

(** ** Availability *)

Definition isDateBooked (st : FormState) (date : Date) : bool :=
  existsb (fun bookedDate => isSameDay bookedDate date) (bookedDates st).

(** The range check both handlers run:
    [eachDayOfInterval({ start, end }).some(date => isDateBooked(date))]. *)
Definition someDayBooked (st : FormState) (start end_ : Date) : Completion bool :=
  match eachDayOfInterval start end_ with
  | None => Thrown "Invalid interval"
  | Some daysToCheck => Normal (existsb (isDateBooked st) daysToCheck)
  end.

(** ** Choosing dates *)

(** The [type] argument of [handleDateChange]: ['checkIn' | 'checkOut']. *)
Inductive DateField := checkInField | checkOutField.

Definition withCheckIn (v : option Date) (bd : BookingDetails) : BookingDetails :=
  {| apartmentId := apartmentId bd; checkIn := v; checkOut := checkOut bd;
     guestName := guestName bd; guestEmail := guestEmail bd |}.

Definition withCheckOut (v : option Date) (bd : BookingDetails) : BookingDetails :=
  {| apartmentId := apartmentId bd; checkIn := checkIn bd; checkOut := v;
     guestName := guestName bd; guestEmail := guestEmail bd |}.

Definition withGuestName (v : option string) (bd : BookingDetails) : BookingDetails :=
  {| apartmentId := apartmentId bd; checkIn := checkIn bd; checkOut := checkOut bd;
     guestName := v; guestEmail := guestEmail bd |}.

Definition withGuestEmail (v : option string) (bd : BookingDetails) : BookingDetails :=
  {| apartmentId := apartmentId bd; checkIn := checkIn bd; checkOut := checkOut bd;
     guestName := guestName bd; guestEmail := v |}.

(** [onChange] of the two text inputs:
    [setBookingDetails({ ...bookingDetails, guestName: e.target.value })]. *)
Definition onGuestNameChange (value : string) (st : FormState) : FormState :=
  setBookingDetails (withGuestName (Some value) (bookingDetails st)) st.

Definition onGuestEmailChange (value : string) (st : FormState) : FormState :=
  setBookingDetails (withGuestEmail (Some value) (bookingDetails st)) st.

(** First half of [handleDateChange], up to the range check: either the
    endpoint is booked and the handler returns at once ([inl], the state it
    leaves), or [newBookingDetails] is built ([inr]). *)
Definition handleDateChange_endpoint (st : FormState) (type : DateField) (date : Date)
  : FormState + BookingDetails :=
  let newBookingDetails := bookingDetails st in
  match type with
  | checkInField =>
      if isDateBooked st date
      then inl (setError (Some "This date is already booked") st)
      else
        let newBookingDetails := withCheckIn (Some date) newBookingDetails in
        match checkOut (bookingDetails st) with
        | Some co =>
            if (date >=? co)%Z
            then inr (withCheckOut None newBookingDetails)
            else inr newBookingDetails
        | None => inr newBookingDetails
        end
  | checkOutField =>
      if isDateBooked st date
      then inl (setError (Some "This date is already booked") st)
      else inr (withCheckOut (Some date) newBookingDetails)
  end.

(** The interval the second half enumerates:
    [newBookingDetails.checkIn && newBookingDetails.checkOut]. *)
Definition completedRange (bd : BookingDetails) : option (Date * Date) :=
  match checkIn bd, checkOut bd with
  | Some start, Some end_ => Some (start, end_)
  | _, _ => None
  end.

(** [handleDateChange(type, date)].  [Thrown] is an exception leaving the
    handler (it has no [try]); the state is then the one it was called in. *)
Definition handleDateChange (st : FormState) (type : DateField) (date : option Date)
  : Completion FormState :=
  match date with
  | None => Normal st
  | Some date =>
      match handleDateChange_endpoint st type date with
      | inl rejected => Normal rejected
      | inr newBookingDetails =>
          match completedRange newBookingDetails with
          | Some (start, end_) =>
              conflict <- someDayBooked st start end_ ;;
              if (conflict : bool)
              then Normal (setError (Some "Some days in this range are already booked") st)
              else Normal (setError None (setBookingDetails newBookingDetails st))
          | None => Normal (setError None (setBookingDetails newBookingDetails st))
          end
      end
  end.

(** The days a react-datepicker offers: not before [minDate]'s day and not
    one of [excludeDates], both compared by calendar day. *)
Definition offered (minDate : Date) (excludeDates : list Date) (date : Date) : bool :=
  (dayNumber minDate <=? dayNumber date)%Z
  && negb (existsb (fun excluded => isSameDay excluded date) excludeDates).

(** [minDate] of the two pickers of BookingForm.tsx; [now] is [new Date()]. *)
Definition checkInMinDate (now : Date) (st : FormState) : Date := now.

Definition checkOutMinDate (now : Date) (st : FormState) : Date :=
  match checkIn (bookingDetails st) with
  | Some ci => addDays ci 1
  | None => now
  end.

(** What the two pickers can pass to [handleDateChange]. *)
Definition pickable (now : Date) (st : FormState) (type : DateField) (date : Date) : bool :=
  match type with
  | checkInField => offered (checkInMinDate now st) (bookedDates st) date
  | checkOutField => offered (checkOutMinDate now st) (bookedDates st) date
  end.

(** ** Coupons *)

(** The [coupons] table as the client sees it: its rows, or a failure to
    reach it. *)
Inductive CouponStore :=
| StoreUp (rows : list Coupon)
| StoreDown (message : string).

(** The filters [.eq('code', c).eq('is_active', true).gt('expires_at', now)]. *)
Definition couponMatches (c : string) (now : Date) (row : Coupon) : bool :=
  String.eqb (code row) c && Bool.eqb (is_active row) true && (now <? expires_at row)%Z.

(** [.single()]: the result must be exactly one row, otherwise the response
    carries an error and no data. *)
Definition single {A : Type} (rows : list A) : PostgrestResponse A :=
  match rows with
  | [row] => {| data := Some row; error := None |}
  | _ => {| data := None;
            error := Some "JSON object requested, multiple (or no) rows returned" |}
  end.

Definition queryCoupon (store : CouponStore) (c : string) (now : Date)
  : PostgrestResponse Coupon :=
  match store with
  | StoreUp rows => single (filter (couponMatches c now) rows)
  | StoreDown message => {| data := None; error := Some message |}
  end.

(** [validateCoupon] of the form, from the response of its query on. *)
Definition validateCoupon_response (resp : PostgrestResponse Coupon) (st : FormState)
  : bool * FormState :=
  let st := setError None (setIsValidatingCoupon true st) in
  let try_ : Completion (bool * FormState) :=
    match error resp with
    | Some e => Thrown e
    | None =>
        match data resp with
        | Some d => Normal (true, setAppliedCoupon (Some d) st)
        | None =>
            Normal (false,
                    setAppliedCoupon None (setError (Some "Invalid or expired coupon code") st))
        end
    end in
  let caught :=
    match try_ with
    | Normal r => r
    | Thrown _ => (false, setAppliedCoupon None (setError (Some "Failed to validate coupon") st))
    end in
  (fst caught, setIsValidatingCoupon false (snd caught)).

Definition validateCoupon (store : CouponStore) (now : Date) (c : string) (st : FormState)
  : bool * FormState :=
  validateCoupon_response (queryCoupon store c now) st.

(** What an attempt to apply the typed code leaves: the state, and the codes
    the store was asked for. *)
Record CouponAttempt := {
  afterAttempt : FormState;
  queried : list string
}.

Definition handleApplyCoupon (store : CouponStore) (now : Date) (st : FormState)
  : CouponAttempt :=
  if negb (truthy (Some (trim (couponCode st))))
  then {| afterAttempt := setError (Some "Please enter a coupon code") st; queried := [] |}
  else {| afterAttempt := snd (validateCoupon store now (trim (couponCode st)) st);
          queried := [trim (couponCode st)] |}.

(** ** Price *)

Definition calculateTotalPrice (apartment : Apartment) (st : FormState)
                               (numberOfNights : Z) : Q :=
  let totalPrice := (inject_Z numberOfNights * price_per_night apartment)%Q in
  match appliedCoupon st with
  | Some coupon =>
      let discount := (totalPrice * (discount_percent coupon / 100))%Q in
      (totalPrice - discount)%Q
  | None => totalPrice
  end.

(** [Math.round(totalPrice * 100)]. *)
Definition priceInCents (totalPrice : Q) : Z := Math_round (totalPrice * 100)%Q.

(** ** Submission *)

(** [s.toLowerCase()], on the ASCII letters only; JavaScript lowers the
    letters outside ASCII too. *)
Definition toLowerAscii (c : Ascii.ascii) : Ascii.ascii :=
  let n := Ascii.nat_of_ascii c in
  if (Nat.leb 65 n && Nat.leb n 90)%bool then Ascii.ascii_of_nat (n + 32) else c.

Fixpoint toLowerCase (s : string) : string :=
  match s with
  | EmptyString => EmptyString
  | String c s' => String (toLowerAscii c) (toLowerCase s')
  end.

Definition dquote : string := String (Ascii.ascii_of_nat 34) EmptyString.

Definition nameMap : list (string * string) :=
  [ ("Senovinis medinis namas " ++ dquote ++ "Gintaras" ++ dquote, "gintaras");
    ("Dvivietis apartamentas " ++ dquote ++ "Pikulas" ++ dquote, "pikulas");
    ("Šeimyninis apartamentas " ++ dquote ++ "Māra" ++ dquote, "mara");
    ("Namelis dviems " ++ dquote ++ "Medeinė" ++ dquote, "medeine") ].

Fixpoint lookupName (m : list (string * string)) (k : string) : option string :=
  match m with
  | [] => None
  | (k', v) :: m' => if String.eqb k' k then Some v else lookupName m' k
  end.

(** [nameMap[fullName] || fullName.toLowerCase()], the lookup being among
    the four keys of [nameMap] itself (the keys every object inherits, such
    as [constructor], are not looked at). *)
Definition getApartmentBaseName (fullName : string) : string :=
  match lookupName nameMap fullName with
  | Some v => v
  | None => toLowerCase fullName
  end.

(** The body of the POST to the payment endpoint ([URLSearchParams]) of the
    coupon-aware form; the constant entries (mode, URLs, currency,
    quantity) are left out.  BookingForm.tsx sends [apartment.name] itself
    as [metadata[apartmentName]] and has no coupon entries. *)
Record CheckoutParams := {
  customer_email : string;
  product_name : string;
  unit_amount : Z;
  metadata_apartmentId : string;
  metadata_apartmentName : string;
  metadata_checkIn : Date;
  metadata_checkOut : Date;
  metadata_email : string;
  metadata_guestName : string;
  metadata_price : Q;
  metadata_coupon : option (string * Q)
}.

(** How the POST ends: [fetch] rejects, or a response arrives with its [ok]
    flag and what [JSON.parse(text).url] evaluates to. *)
Inductive FetchOutcome :=
| FetchRejected (message : string)
| FetchResponded (ok : bool) (session_url : Completion string).

(** The first two checks at the head of the [try] block of [handleSubmit]:
    the required fields, then the order of the two dates. *)
Definition handleSubmit_guards (st : FormState)
  : Completion (Date * Date * string * string) :=
  match checkIn (bookingDetails st), checkOut (bookingDetails st) with
  | Some checkIn, Some checkOut =>
      if negb (truthy (guestEmail (bookingDetails st)))
         || negb (truthy (guestName (bookingDetails st)))
      then Thrown "Please fill in all required fields"
      else
        match guestEmail (bookingDetails st), guestName (bookingDetails st) with
        | Some guestEmail, Some guestName =>
            if (checkOut <=? checkIn)%Z
            then Thrown "Check-out date must be after check-in date"
            else Normal (checkIn, checkOut, guestEmail, guestName)
        | _, _ => Thrown "Please fill in all required fields"
        end
  | _, _ => Thrown "Please fill in all required fields"
  end.

(** All the checks: the guards, then the range check on the dates they let
    through. *)
Definition handleSubmit_checks (st : FormState)
  : Completion (Date * Date * string * string) :=
  fields <- handleSubmit_guards st ;;
  let '(checkIn, checkOut, guestEmail, guestName) := fields in
  conflict <- someDayBooked st checkIn checkOut ;;
  if (conflict : bool)
  then Thrown "Some days in this range are already booked"
  else Normal (checkIn, checkOut, guestEmail, guestName).

Definition checkoutParams (apartment : Apartment) (st : FormState)
    (checkIn checkOut : Date) (guestEmail guestName : string) : CheckoutParams :=
  let numberOfNights := differenceInDays checkOut checkIn in
  let totalPrice := calculateTotalPrice apartment st numberOfNights in
  {| customer_email := guestEmail;
     product_name := name apartment;
     unit_amount := priceInCents totalPrice;
     metadata_apartmentId := id apartment;
     metadata_apartmentName := getApartmentBaseName (name apartment);
     metadata_checkIn := checkIn;
     metadata_checkOut := checkOut;
     metadata_email := guestEmail;
     metadata_guestName := guestName;
     metadata_price := totalPrice;
     metadata_coupon :=
       match appliedCoupon st with
       | Some coupon => Some (code coupon, discount_percent coupon)
       | None => None
       end |}.

(** The [try] block of [handleSubmit]: what it evaluates to (the URL to go
    to, or the exception) and the POSTs it made. *)
Definition handleSubmit_try (apartment : Apartment) (st : FormState)
    (fetch : CheckoutParams -> FetchOutcome)
  : Completion string * list CheckoutParams :=
  match handleSubmit_checks st with
  | Thrown message => (Thrown message, [])
  | Normal (checkIn, checkOut, guestEmail, guestName) =>
      let params := checkoutParams apartment st checkIn checkOut guestEmail guestName in
      (match fetch params with
       | FetchRejected message => Thrown message
       | FetchResponded ok session_url =>
           if negb ok then Thrown "Failed to create checkout session" else session_url
       end,
       [params])
  end.

Record Submission := {
  afterSubmit : FormState;
  requests : list CheckoutParams;
  location_href : option string
}.

Definition handleSubmit (apartment : Apartment) (st : FormState)
    (fetch : CheckoutParams -> FetchOutcome) : Submission :=
  let loading := setError None (setIsLoading true st) in
  match handleSubmit_try apartment st fetch with
  | (Normal url, posts) =>
      {| afterSubmit := setIsLoading false loading;
         requests := posts; location_href := Some url |}
  | (Thrown message, posts) =>
      {| afterSubmit := setIsLoading false (setError (Some message) loading);
         requests := posts; location_href := None |}
  end.

(** ** The coupon box of BookingCalendar *)

Module BookingCalendar.

(** The [useState] cells of the component the coupon box uses. *)
Record CalendarState := {
  couponCode : string;
  isValidatingCoupon : bool;
  couponError : option string;
  appliedCoupon : option Coupon
}.

Definition setIsValidatingCoupon (v : bool) (st : CalendarState) : CalendarState :=
  {| couponCode := couponCode st; isValidatingCoupon := v;
     couponError := couponError st; appliedCoupon := appliedCoupon st |}.

Definition setCouponError (v : option string) (st : CalendarState) : CalendarState :=
  {| couponCode := couponCode st; isValidatingCoupon := isValidatingCoupon st;
     couponError := v; appliedCoupon := appliedCoupon st |}.

Definition setAppliedCoupon (v : option Coupon) (st : CalendarState) : CalendarState :=
  {| couponCode := couponCode st; isValidatingCoupon := isValidatingCoupon st;
     couponError := couponError st; appliedCoupon := v |}.

(** What a click on the apply button leaves: the state, the arguments
    [onCouponApply] was called with, and the codes the store was asked
    for. *)
Record CouponAttempt := {
  afterAttempt : CalendarState;
  onCouponApply_calls : list (option Coupon);
  queried : list string
}.

Section Props.

(** The translation function of the language context, and whether the
    optional [onCouponApply] prop is given. *)
Variable t : string -> string.
Variable onCouponApply : bool.

Definition notify (c : option Coupon) : list (option Coupon) :=
  if onCouponApply then [c] else [].

Definition validateCoupon_response (resp : PostgrestResponse Coupon) (st : CalendarState)
  : CalendarState * list (option Coupon) :=
  let st := setCouponError None (setIsValidatingCoupon true st) in
  let try_ : Completion (CalendarState * list (option Coupon)) :=
    match error resp with
    | Some e => Thrown e
    | None =>
        match data resp with
        | Some d =>
            Normal (setCouponError None (setAppliedCoupon (Some d) st), notify (Some d))
        | None =>
            Normal (setAppliedCoupon None (setCouponError (Some (t "coupon.invalid")) st),
                    notify None)
        end
    end in
  let caught :=
    match try_ with
    | Normal r => r
    | Thrown _ =>
        (setAppliedCoupon None (setCouponError (Some (t "coupon.invalid")) st),
         notify None)
    end in
  (setIsValidatingCoupon false (fst caught), snd caught).

Definition validateCoupon (store : CouponStore) (now : Date) (st : CalendarState)
  : CouponAttempt :=
  if negb (truthy (Some (trim (couponCode st))))
  then {| afterAttempt := setCouponError (Some (t "please.enter.coupon")) st;
          onCouponApply_calls := []; queried := [] |}
  else
    let r := validateCoupon_response
               (queryCoupon store (trim (couponCode st)) now) st in
    {| afterAttempt := fst r; onCouponApply_calls := snd r;
       queried := [trim (couponCode st)] |}.

End Props.

End BookingCalendar.

(** ** The price in binary64

    The numbers of the running program are IEEE 754 doubles.  The same
    computation over [float], to evaluate it on given inputs. *)

Module Binary64.

(** [Math.round] of a double; [None] for NaN and the infinities, which it
    returns unchanged. *)
Definition Math_round (x : float) : option Z :=
  match Prim2SF x with
  | S754_zero _ => Some 0%Z
  | S754_finite s m e =>
      let n := if s then Z.neg m else Z.pos m in
      if (0 <=? e)%Z then Some (n * 2 ^ e)%Z
      else Some ((2 * n + 2 ^ (- e)) / 2 ^ (1 - e))%Z
  | S754_infinity _ => None
  | S754_nan => None
  end.

Definition calculateTotalPrice (price_per_night : float) (discount_percent : option float)
                               (numberOfNights : float) : float :=
  let totalPrice := (numberOfNights * price_per_night)%float in
  match discount_percent with
  | Some percent =>
      let discount := (totalPrice * (percent / 100))%float in
      (totalPrice - discount)%float
  | None => totalPrice
  end.

Definition priceInCents (totalPrice : float) : option Z :=
  Math_round (totalPrice * 100)%float.

End Binary64.

(** ** The amounts of the request in binary64 *)

Module Binary64Form.






End Binary64Form.

(** * Vocabulary of the specification *)

(** A booked interval as the data model has it: it does not end before it
    starts. *)
Definition wellFormed (r : BookingRow) : Prop := (check_in r <= check_out r)%Z.

(** [d] falls, by calendar day, within the inclusive span of the interval. *)
Definition withinSpan (r : BookingRow) (d : Date) : Prop :=
  (dayNumber (check_in r) <= dayNumber d <= dayNumber (check_out r))%Z.

(** The response of a load that succeeded with the given rows. *)
Definition loaded (rows : list BookingRow) : PostgrestResponse (list BookingRow) :=
  {| data := Some rows; error := None |}.

(** Some date of the inclusive day sequence from [start] to [end_] is
    booked. *)
Definition bookedWithin (st : FormState) (start end_ : Date) : Prop :=
  exists d, (dayNumber start <= dayNumber d <= dayNumber end_)%Z /\ isDateBooked st d = true.

(** The draft is valid for submission: both dates and both guest fields
    present, check-out strictly after check-in, and no booked date in the
    inclusive day range. *)
Definition submittable (st : FormState) : Prop :=
  exists ci co email guest,
    checkIn (bookingDetails st) = Some ci /\
    checkOut (bookingDetails st) = Some co /\
    guestEmail (bookingDetails st) = Some email /\ email <> EmptyString /\
    guestName (bookingDetails st) = Some guest /\ guest <> EmptyString /\
    (ci < co)%Z /\
    ~ bookedWithin st ci co.

(** A date selection that fails validation: the chosen endpoint is booked,
    or the selection it completes has a booked date in its inclusive day
    range. *)
Definition selectionFails (st : FormState) (type : DateField) (date : Date) : Prop :=
  isDateBooked st date = true \/
  match type with
  | checkInField =>
      exists co, checkOut (bookingDetails st) = Some co /\ (date < co)%Z /\
                 bookedWithin st date co
  | checkOutField =>
      exists ci, checkIn (bookingDetails st) = Some ci /\ bookedWithin st ci date
  end.

(** The load of the booked intervals fails: the [try] block of
    [fetchBookedDates] ends in its [catch]. *)
Definition loadFailed (resp : PostgrestResponse (list BookingRow)) : Prop :=
  exists message, fetchBookedDates_try resp = Thrown message.



(** * The rest of the components *)

(** ** What the coupon-aware form renders *)

(** [bookingDetails.checkIn && bookingDetails.checkOut
      ? differenceInDays(bookingDetails.checkOut, bookingDetails.checkIn) : 0]. *)
Definition numberOfNights (st : FormState) : Z :=
  match checkIn (bookingDetails st), checkOut (bookingDetails st) with
  | Some ci, Some co => differenceInDays co ci
  | _, _ => 0%Z
  end.

(** [const totalPrice = calculateTotalPrice(numberOfNights)]. *)
Definition totalPrice (apartment : Apartment) (st : FormState) : Q :=
  calculateTotalPrice apartment st (numberOfNights st).

(** [minDate] of the check-out picker of the coupon-aware form:
    [bookingDetails.checkIn || new Date()]. *)
Definition couponForm_checkOutMinDate (now : Date) (st : FormState) : Date :=
  match checkIn (bookingDetails st) with
  | Some ci => ci
  | None => now
  end.

Definition couponForm_pickable (now : Date) (st : FormState) (type : DateField) (date : Date)
  : bool :=
  match type with
  | checkInField => offered now (bookedDates st) date
  | checkOutField => offered (couponForm_checkOutMinDate now st) (bookedDates st) date
  end.

(** ** The day grid of BookingCalendar *)

Module CalendarDays.

(** The props the click handling reads. *)
Record Props := {
  bookedDates : list Date;
  has_onRulesAcceptanceChange : bool
}.

(** The two [useState] cells of the rules checkbox. *)
Record RulesState := {
  rulesAccepted : bool;
  showError : bool
}.

(** What a handler leaves: the cells, and the calls made to the parent's
    [onDateSelect] and [onRulesAcceptanceChange]. *)
Record Handled := {
  cells : RulesState;
  onDateSelect_calls : list Date;
  onRulesAcceptanceChange_calls : list bool
}.

Definition isDateBooked (props : Props) (date : Date) : bool :=
  existsb (fun bookedDate => isSameDay bookedDate date) (bookedDates props).

(** [handleRulesAcceptanceChange(e)], [checked] being [e.target.checked]. *)
Definition handleRulesAcceptanceChange (props : Props) (checked : bool) (st : RulesState)
  : Handled :=
  {| cells := {| rulesAccepted := checked; showError := false |};
     onDateSelect_calls := [];
     onRulesAcceptanceChange_calls :=
       if has_onRulesAcceptanceChange props then [checked] else [] |}.

Definition handleDateSelect (st : RulesState) (date : Date) : Handled :=
  if negb (rulesAccepted st)
  then {| cells := {| rulesAccepted := rulesAccepted st; showError := true |};
          onDateSelect_calls := []; onRulesAcceptanceChange_calls := [] |}
  else {| cells := st; onDateSelect_calls := [date]; onRulesAcceptanceChange_calls := [] |}.

(** [isPast(day)]: before [Date.now()]. *)
Definition isPast (now day : Date) : bool := (day <? now)%Z.

(** [isPast(day) && !isSameDay(day, today)]. *)
Definition isPastDate (today now day : Date) : bool :=
  isPast now day && negb (isSameDay day today).

(** [isAvailable = !isBooked && !isPastDate]. *)
Definition isAvailable (props : Props) (today now day : Date) : bool :=
  negb (isDateBooked props day) && negb (isPastDate today now day).

(** [onClick] of a day button:
    [!isBooked && !isPastDate && handleDateSelect(day)]. *)
Definition onDayClick (props : Props) (today now : Date) (st : RulesState) (day : Date)
  : Handled :=
  if negb (isDateBooked props day) && negb (isPastDate today now day)
  then handleDateSelect st day
  else {| cells := st; onDateSelect_calls := []; onRulesAcceptanceChange_calls := [] |}.

End CalendarDays.

(** ** Sessions of BookingForm.tsx *)

(** What can happen to a mounted form: the answer to its load arrives, a
    picker hands a date (or [null]) to [handleDateChange], a guest field is
    typed in, the form is submitted. *)
Inductive Event :=
| Loaded (resp : PostgrestResponse (list BookingRow))
| Picked (now : Date) (type : DateField) (date : option Date)
| NameTyped (value : string)
| EmailTyped (value : string)
| Submitted (fetch : CheckoutParams -> FetchOutcome).

(** One event, from the state it finds to the state it leaves.  A picker
    hands over only days it offers. *)
Inductive step (apartment : Apartment) : FormState -> Event -> FormState -> Prop :=
| step_loaded st resp :
    step apartment st (Loaded resp) (fetchBookedDates resp st)
| step_cleared st now type :
    step apartment st (Picked now type None) st
| step_picked st now type date st' :
    pickable now st type date = true ->
    handleDateChange st type (Some date) = Normal st' ->
    step apartment st (Picked now type (Some date)) st'
| step_name st value :
    step apartment st (NameTyped value) (onGuestNameChange value st)
| step_email st value :
    step apartment st (EmailTyped value) (onGuestEmailChange value st)
| step_submitted st fetch :
    step apartment st (Submitted fetch) (afterSubmit (handleSubmit apartment st fetch)).

(** A run of events. *)
Inductive run (apartment : Apartment) : FormState -> list Event -> FormState -> Prop :=
| run_nil st : run apartment st [] st
| run_cons st e st' es st'' :
    step apartment st e st' -> run apartment st' es st'' ->
    run apartment st (e :: es) st''.

Definition isLoaded (e : Event) : bool :=
  match e with
  | Loaded _ => true
  | _ => false
  end.

(** The draft's dates, when both are set, are in order. *)
Definition orderedDraft (st : FormState) : Prop :=
  forall ci co,
    checkIn (bookingDetails st) = Some ci -> checkOut (bookingDetails st) = Some co ->
    (ci < co)%Z.

(** The draft's dates, when both are set, span no booked date. *)
Definition freeDraft (st : FormState) : Prop :=
  forall ci co,
    checkIn (bookingDetails st) = Some ci -> checkOut (bookingDetails st) = Some co ->
    ~ bookedWithin st ci co.

(** * Properties *)

(** ** Calendar days *)

Lemma msPerDay_pos : (0 < msPerDay)%Z.
Proof. reflexivity. Qed.

Lemma dayNumber_midnight (k : Z) : dayNumber (parseISO_day k) = k.
Proof. unfold dayNumber, parseISO_day. apply Z.div_mul. discriminate. Qed.

Lemma startOfDay_le (t : Date) : (startOfDay t <= t)%Z.
Proof.
  unfold startOfDay, dayNumber.
  pose proof (Z.mul_div_le t msPerDay msPerDay_pos). lia.
Qed.

Lemma midnight_le_iff (k : Z) (t : Date) :
  (parseISO_day k <= t)%Z <-> (k <= dayNumber t)%Z.
Proof.
  unfold parseISO_day, dayNumber. split; intro H.
  - apply Z.div_le_lower_bound; [apply msPerDay_pos | lia].
  - pose proof (Z.mul_div_le t msPerDay msPerDay_pos).
    pose proof msPerDay_pos. nia.
Qed.

Lemma dayNumber_mono (a b : Date) : (a <= b)%Z -> (dayNumber a <= dayNumber b)%Z.
Proof. intro H. apply Z.div_le_mono; [apply msPerDay_pos | exact H]. Qed.

Lemma next_midnight (k : Z) :
  startOfDay (addDays (parseISO_day k) 1) = parseISO_day (k + 1).
Proof.
  unfold startOfDay, addDays, parseISO_day, dayNumber.
  replace (k * msPerDay + 1 * msPerDay)%Z with ((k + 1) * msPerDay)%Z by ring.
  rewrite Z.div_mul by discriminate. reflexivity.
Qed.

Lemma isSameDay_iff (a b : Date) : isSameDay a b = true <-> dayNumber a = dayNumber b.
Proof.
  unfold isSameDay, startOfDay. rewrite Z.eqb_eq. split; intro H.
  - apply Z.mul_cancel_r in H; [exact H | discriminate].
  - now rewrite H.
Qed.

(** The loop started at midnight of day [c] lists the midnights of the days
    from [c] on that are not after [endTime], as far as the fuel goes. *)
Lemma daysLoop_In (fuel : nat) : forall (c : Z) (endTime x : Date),
  In x (daysLoop fuel (parseISO_day c) endTime) <->
  exists k, (c <= k < c + Z.of_nat fuel)%Z /\ (k <= dayNumber endTime)%Z /\ x = parseISO_day k.
Proof.
  induction fuel as [|fuel IH]; intros c endTime x.
  - simpl. split; [tauto | intros (k & Hk & _); lia].
  - cbn [daysLoop]. destruct (Z.leb_spec (parseISO_day c) endTime) as [Hle | Hgt].
    + rewrite next_midnight. cbn [In]. rewrite IH. apply midnight_le_iff in Hle.
      split.
      * intros [Hx | (k & Hk & Hend & Hx)].
        -- exists c. repeat split; lia.
        -- exists k. repeat split; lia.
      * intros (k & Hk & Hend & Hx).
        destruct (Z.eq_dec k c) as [-> | Hne]; [left; now symmetry | right].
        exists k. repeat split; lia.
    + cbn [In]. split; [tauto | intros (k & Hk & Hend & _)].
      apply midnight_le_iff in Hend.
      assert (parseISO_day c <= parseISO_day k)%Z
        by (unfold parseISO_day; pose proof msPerDay_pos; nia).
      lia.
Qed.

(** On an interval that does not end before it starts, [eachDayOfInterval]
    returns, and what it returns is the midnights of the days from the day
    of [start] to the day of [end] inclusive. *)
Lemma eachDayOfInterval_In (start end_ : Date) :
  (start <= end_)%Z ->
  exists days, eachDayOfInterval start end_ = Some days /\
    forall x, In x days <->
      exists k, (dayNumber start <= k <= dayNumber end_)%Z /\ x = parseISO_day k.
Proof.
  intro Hle. unfold eachDayOfInterval.
  destruct (Z.ltb_spec end_ start) as [Hlt | _]; [lia |].
  eexists. split; [reflexivity |]. intro x.
  pose proof (dayNumber_mono _ _ Hle) as Hd.
  change (startOfDay start) with (parseISO_day (dayNumber start)).
  rewrite daysLoop_In. rewrite Z2Nat.id by lia.
  split; intros (k & H1 & H2); exists k.
  - destruct H2 as [H2 H3]. split; lia.
  - repeat split; lia.
Qed.

Lemma eachDayOfInterval_reversed (start end_ : Date) :
  (end_ < start)%Z -> eachDayOfInterval start end_ = None.
Proof.
  intro H. unfold eachDayOfInterval.
  destruct (Z.ltb_spec end_ start); [reflexivity | lia].
Qed.

(** ** The set of booked dates *)

Lemma setAdd_In (s : list DayKey) (k x : DayKey) :
  In x (setAdd s k) <-> In x s \/ x = k.
Proof.
  unfold setAdd. destruct (existsb (Z.eqb k) s) eqn:E.
  - apply existsb_exists in E. destruct E as (y & Hy & Heq).
    apply Z.eqb_eq in Heq. subst y. split; [tauto | intros [H | ->]; assumption].
  - rewrite in_app_iff. cbn [In]. split; intros [H | H]; auto.
    destruct H as [H | []]; auto.
Qed.

Lemma setAdd_NoDup (s : list DayKey) (k : DayKey) : NoDup s -> NoDup (setAdd s k).
Proof.
  intro Hs. unfold setAdd. destruct (existsb (Z.eqb k) s) eqn:E; [exact Hs |].
  apply NoDup_app; [exact Hs | constructor; [tauto | constructor] |].
  intros x Hx [Hk | []]. subst x.
  assert (existsb (Z.eqb k) s = true) as Ht
    by (apply existsb_exists; exists k; split; [exact Hx | apply Z.eqb_refl]).
  congruence.
Qed.

Lemma fold_setAdd_In (xs : list DayKey) : forall (s : list DayKey) (x : DayKey),
  In x (fold_left setAdd xs s) <-> In x s \/ In x xs.
Proof.
  induction xs as [|k xs IH]; intros s x; cbn [fold_left In].
  - tauto.
  - rewrite IH, setAdd_In. intuition congruence.
Qed.

Lemma fold_setAdd_NoDup (xs : list DayKey) : forall s : list DayKey,
  NoDup s -> NoDup (fold_left setAdd xs s).
Proof.
  induction xs as [|k xs IH]; intros s Hs; cbn [fold_left]; [exact Hs |].
  apply IH, setAdd_NoDup, Hs.
Qed.

Lemma newSet_In (xs : list DayKey) (x : DayKey) : In x (newSet xs) <-> In x xs.
Proof. unfold newSet. rewrite fold_setAdd_In. cbn [In]. tauto. Qed.

Lemma newSet_NoDup (xs : list DayKey) : NoDup (newSet xs).
Proof. apply fold_setAdd_NoDup. constructor. Qed.

Lemma map_parseISO_day_days (ks : list DayKey) : map dayNumber (map parseISO_day ks) = ks.
Proof.
  induction ks as [|k ks IH]; cbn [map]; [reflexivity |].
  now rewrite dayNumber_midnight, IH.
Qed.

(** On well-formed rows the [forEach] completes, and it has pushed exactly
    the midnights of the days each row spans. *)
Lemma pushAllDays_In (rows : list BookingRow) : forall allDates : list Date,
  Forall wellFormed rows ->
  exists all, pushAllDays allDates rows = Normal all /\
    forall x, In x all <->
      In x allDates \/
      exists r k, In r rows /\
        (dayNumber (check_in r) <= k <= dayNumber (check_out r))%Z /\ x = parseISO_day k.
Proof.
  induction rows as [|r rows IH]; intros allDates Hwf; cbn [pushAllDays].
  - exists allDates. split; [reflexivity |]. intro x. split; [tauto |].
    intros [H | (r & k & [] & _)]. exact H.
  - inversion Hwf as [|? ? Hr Hrest]; subst.
    destruct (eachDayOfInterval_In _ _ Hr) as (days & -> & Hdays).
    destruct (IH (allDates ++ days)%list Hrest) as (all & Hall & Hin).
    exists all. split; [exact Hall |]. intro x. rewrite Hin, in_app_iff, Hdays.
    split.
    + intros [[H | (k & Hk & Hx)] | (r' & k & Hr' & Hk & Hx)].
      * now left.
      * right. exists r, k. cbn [In]. auto.
      * right. exists r', k. cbn [In]. auto.
    + intros [H | (r' & k & [<- | Hr'] & Hk & Hx)].
      * now left; left.
      * left; right. exists k. auto.
      * right. exists r', k. auto.
Qed.

Lemma isDateBooked_true_iff (st : FormState) (date : Date) :
  isDateBooked st date = true <->
  exists bookedDate, In bookedDate (bookedDates st) /\ dayNumber bookedDate = dayNumber date.
Proof.
  unfold isDateBooked. rewrite existsb_exists.
  split; intros (b & Hb & H); exists b; (split; [exact Hb |]); now apply isSameDay_iff.
Qed.

Lemma isDateBooked_same_day (st : FormState) (a b : Date) :
  dayNumber a = dayNumber b -> isDateBooked st a = isDateBooked st b.
Proof.
  intro H. apply eq_true_iff_eq. rewrite !isDateBooked_true_iff.
  now rewrite H.
Qed.

(** C1.  After a load that returns the booked intervals [rows], a date is
    reported booked exactly when, by calendar day, it lies within the
    inclusive span from check-in through check-out of one of them; and the
    list of booked dates holds no day twice. *)
Theorem isDateBooked_iff_within_some_interval
    (rows : list BookingRow) (st : FormState) (d : Date) :
  Forall wellFormed rows ->
  let st' := fetchBookedDates (loaded rows) st in
  NoDup (bookedDates st') /\
  NoDup (map format_yyyy_MM_dd (bookedDates st')) /\
  (isDateBooked st' d = true <-> exists r, In r rows /\ withinSpan r d).
Proof.
  intros Hwf st'.
  destruct (pushAllDays_In rows [] Hwf) as (all & Hall & Hin).
  assert (bookedDates st' = map parseISO_day (newSet (map format_yyyy_MM_dd all))) as Hst.
  { unfold st', fetchBookedDates, fetchBookedDates_try, loaded. cbn [error data].
    rewrite Hall. reflexivity. }
  rewrite Hst.
  assert (NoDup (map format_yyyy_MM_dd
                   (map parseISO_day (newSet (map format_yyyy_MM_dd all))))) as Hnd.
  { change (map format_yyyy_MM_dd) with (map dayNumber) at 1.
    rewrite map_parseISO_day_days. apply newSet_NoDup. }
  split; [| split].
  - eapply NoDup_map_inv. exact Hnd.
  - exact Hnd.
  - rewrite isDateBooked_true_iff, Hst. unfold withinSpan. split.
    + intros (b & Hb & Hday).
      apply in_map_iff in Hb. destruct Hb as (key & <- & Hkey).
      rewrite dayNumber_midnight in Hday. subst key.
      apply newSet_In, in_map_iff in Hkey. destruct Hkey as (x & Hx & Hxin).
      apply Hin in Hxin. destruct Hxin as [[] | (r & k & Hr & Hk & ->)].
      exists r. split; [exact Hr |].
      unfold format_yyyy_MM_dd in Hx. rewrite dayNumber_midnight in Hx. lia.
    + intros (r & Hr & Hspan).
      exists (parseISO_day (dayNumber d)). split; [| apply dayNumber_midnight].
      apply in_map, newSet_In, in_map_iff.
      exists (parseISO_day (dayNumber d)).
      split; [apply dayNumber_midnight |].
      apply Hin. right. exists r, (dayNumber d). auto.
Qed.

Lemma isDateBooked_iff_within_some_interval_witness :
  let rows := [ {| check_in := parseISO_day 19875; check_out := parseISO_day 19877 |} ] in
  let st' := fetchBookedDates (loaded rows)
               (initialState {| id := "a1"; name := "Gintaras"; price_per_night := 100 |}) in
  Forall wellFormed rows /\
  isDateBooked st' (parseISO_day 19876 + 3600000) = true /\
  isDateBooked st' (parseISO_day 19879) = false.
Proof.
  intros rows st'.
  assert (Forall wellFormed rows) as Hwf
    by (repeat constructor; unfold wellFormed; cbn; lia).
  split; [exact Hwf |].
  pose proof (isDateBooked_iff_within_some_interval rows
    (initialState {| id := "a1"; name := "Gintaras"; price_per_night := 100 |})
    (parseISO_day 19876 + 3600000) Hwf) as (_ & _ & H).
  split; [| vm_compute; reflexivity].
  apply H. exists {| check_in := parseISO_day 19875; check_out := parseISO_day 19877 |}.
  split; [now left | unfold withinSpan; vm_compute; split; discriminate].
Defined.


(** ** The range check *)

Lemma someDayBooked_Normal (st : FormState) (start end_ : Date) :
  (start <= end_)%Z ->
  exists conflict, someDayBooked st start end_ = Normal conflict /\
    (conflict = true <-> bookedWithin st start end_).
Proof.
  intro Hle. unfold someDayBooked.
  destruct (eachDayOfInterval_In _ _ Hle) as (days & -> & Hdays).
  eexists. split; [reflexivity |].
  rewrite existsb_exists. unfold bookedWithin. split.
  - intros (x & Hx & Hb). apply Hdays in Hx. destruct Hx as (k & Hk & ->).
    exists (parseISO_day k). rewrite dayNumber_midnight. auto.
  - intros (d & Hd & Hb). exists (parseISO_day (dayNumber d)). split.
    + apply Hdays. exists (dayNumber d). auto.
    + rewrite <- Hb. apply isDateBooked_same_day, dayNumber_midnight.
Qed.

(** C2.  For a start before the end, the range check completes, and it
    reports a conflict exactly when some date of the inclusive day sequence
    from start to end is booked: with no booked date in the span it answers
    false, and once the booked dates hold a date of a day inside the span it
    answers true. *)
Theorem someDayBooked_iff_bookedWithin (st : FormState) (start end_ : Date) :
  (start < end_)%Z ->
  exists conflict,
    someDayBooked st start end_ = Normal conflict /\
    (conflict = true <-> bookedWithin st start end_) /\
    ((forall d, (dayNumber start <= dayNumber d <= dayNumber end_)%Z ->
                isDateBooked st d = false) -> conflict = false) /\
    (forall (booked : Date) (before after : list Date),
        (dayNumber start <= dayNumber booked <= dayNumber end_)%Z ->
        someDayBooked (setBookedDates (before ++ booked :: after)%list st) start end_
        = Normal true).
Proof.
  intro Hlt.
  destruct (someDayBooked_Normal st start end_) as (conflict & Hrun & Hiff); [lia |].
  exists conflict. split; [exact Hrun |]. split; [exact Hiff |]. split.
  - intro Hfree. destruct conflict; [| reflexivity].
    destruct (proj1 Hiff eq_refl) as (d & Hd & Hb). rewrite (Hfree d Hd) in Hb. discriminate.
  - intros booked before after Hin.
    destruct (someDayBooked_Normal (setBookedDates (before ++ booked :: after)%list st)
                start end_) as (c & Hc & Hciff); [lia |].
    rewrite Hc. f_equal. apply Hciff. exists booked. split; [exact Hin |].
    apply isDateBooked_true_iff. exists booked. split; [| reflexivity].
    cbn [setBookedDates bookedDates]. apply in_elt.
Qed.

Lemma someDayBooked_iff_bookedWithin_witness :
  let st := setBookedDates [parseISO_day 19876]
              (initialState {| id := "a1"; name := "Gintaras"; price_per_night := 100 |}) in
  (parseISO_day 19875 < parseISO_day 19878)%Z /\
  someDayBooked st (parseISO_day 19875) (parseISO_day 19878) = Normal true.
Proof.
  intro st.
  assert (parseISO_day 19875 < parseISO_day 19878)%Z as Hlt by reflexivity.
  split; [exact Hlt |].
  destruct (someDayBooked_iff_bookedWithin
              (initialState {| id := "a1"; name := "Gintaras"; price_per_night := 100 |})
              (parseISO_day 19875) (parseISO_day 19878) Hlt)
    as (conflict & _ & _ & _ & Hins).
  apply (Hins (parseISO_day 19876) [] []).
  vm_compute. split; discriminate.
Defined.


(** ** Choosing dates *)

Lemma Zgeb_false_lt (a b : Z) : (a >=? b)%Z = false <-> (a < b)%Z.
Proof. rewrite Z.geb_leb, Z.leb_gt. tauto. Qed.

(** A range whose end is before its start and whose end day is free holds
    no booked date. *)
Lemma bookedWithin_reversed (st : FormState) (start end_ : Date) :
  (end_ < start)%Z -> isDateBooked st end_ = false -> ~ bookedWithin st start end_.
Proof.
  intros Hlt Hfree (d & Hd & Hb).
  assert (dayNumber end_ <= dayNumber start)%Z by (apply dayNumber_mono; lia).
  rewrite (isDateBooked_same_day st d end_) in Hb by lia. congruence.
Qed.

(** C6.  A date selection that fails validation (the chosen check-in or
    check-out date is booked, or the completed selection has a booked date
    in its inclusive day range) returns with the booking draft as it was:
    the only cell changed is the error message, which is set. *)
Theorem handleDateChange_rejects_in_place
    (st : FormState) (type : DateField) (date : Date) :
  selectionFails st type date ->
  exists st' message,
    handleDateChange st type (Some date) = Normal st' /\
    st' = setError (Some message) st /\
    bookingDetails st' = bookingDetails st /\
    formError st' = Some message.
Proof.
  intro Hfail. unfold handleDateChange, handleDateChange_endpoint.
  destruct (isDateBooked st date) eqn:Hdate.
  - destruct type; eexists; eexists; (split; [reflexivity |]); repeat split.
  - destruct Hfail as [Hb | Hrange]; [congruence |].
    destruct type.
    + destruct Hrange as (co & Hco & Hlt & Hbooked). rewrite Hco.
      rewrite (proj2 (Zgeb_false_lt date co) Hlt).
      unfold completedRange. cbn [withCheckIn checkIn checkOut]. rewrite Hco.
      destruct (someDayBooked_Normal st date co) as (c & -> & Hc); [lia |].
      rewrite (proj2 Hc Hbooked). cbn [bindC].
      eexists; eexists; (split; [reflexivity |]); repeat split.
    + destruct Hrange as (ci & Hci & Hbooked).
      unfold completedRange. cbn [withCheckOut checkIn checkOut]. rewrite Hci.
      destruct (Z_lt_le_dec date ci) as [Hrev | Hle].
      * exfalso. exact (bookedWithin_reversed st ci date Hrev Hdate Hbooked).
      * destruct (someDayBooked_Normal st ci date Hle) as (c & -> & Hc).
        rewrite (proj2 Hc Hbooked). cbn [bindC].
        eexists; eexists; (split; [reflexivity |]); repeat split.
Qed.

Lemma handleDateChange_rejects_in_place_witness :
  let st := setBookingDetails
              {| apartmentId := "a1"; checkIn := Some (parseISO_day 19875);
                 checkOut := None; guestName := None; guestEmail := None |}
              (setBookedDates [parseISO_day 19876]
                 (initialState {| id := "a1"; name := "Gintaras"; price_per_night := 100 |})) in
  selectionFails st checkOutField (parseISO_day 19878) /\
  exists st' message,
    handleDateChange st checkOutField (Some (parseISO_day 19878)) = Normal st' /\
    st' = setError (Some message) st /\
    bookingDetails st' = bookingDetails st /\
    formError st' = Some message.
Proof.
  intro st.
  assert (selectionFails st checkOutField (parseISO_day 19878)) as Hfail.
  { right. exists (parseISO_day 19875). split; [reflexivity |].
    exists (parseISO_day 19876). split; [vm_compute; split; discriminate | reflexivity]. }
  split; [exact Hfail |].
  exact (handleDateChange_rejects_in_place st checkOutField (parseISO_day 19878) Hfail).
Defined.


(** ** Submission *)

Lemma truthy_Some (s : string) : truthy (Some s) = true <-> s <> EmptyString.
Proof.
  cbn [truthy]. rewrite negb_true_iff. destruct (String.eqb_spec s EmptyString); intuition congruence.
Qed.

(** The guards let through exactly the drafts with every required field
    present and the check-out strictly after the check-in. *)
Lemma handleSubmit_guards_Normal (st : FormState) (ci co : Date) (email guest : string) :
  handleSubmit_guards st = Normal (ci, co, email, guest) <->
  checkIn (bookingDetails st) = Some ci /\
  checkOut (bookingDetails st) = Some co /\
  guestEmail (bookingDetails st) = Some email /\ email <> EmptyString /\
  guestName (bookingDetails st) = Some guest /\ guest <> EmptyString /\
  (ci < co)%Z.
Proof.
  unfold handleSubmit_guards.
  destruct (checkIn (bookingDetails st)) as [ci' |];
    [| split; [discriminate | intros (H & _); discriminate]].
  destruct (checkOut (bookingDetails st)) as [co' |];
    [| split; [discriminate | intros (_ & H & _); discriminate]].
  destruct (guestEmail (bookingDetails st)) as [e |];
    [| cbn; split; [discriminate | intros (_ & _ & H & _); discriminate]].
  destruct (guestName (bookingDetails st)) as [g |];
    [| cbn; rewrite orb_true_r; split;
       [discriminate | intros (_ & _ & _ & _ & H & _); discriminate]].
  pose proof (truthy_Some e) as He. pose proof (truthy_Some g) as Hg.
  destruct (truthy (Some e)); cbn [negb orb].
  2:{ split; [discriminate | intros (_ & _ & H1 & H2 & _)].
      inversion H1; subst. apply He in H2. discriminate. }
  destruct (truthy (Some g)); cbn [negb orb].
  2:{ split; [discriminate | intros (_ & _ & _ & _ & H1 & H2 & _)].
      inversion H1; subst. apply Hg in H2. discriminate. }
  destruct (Z.leb_spec co' ci') as [Hle | Hlt].
  - split; [discriminate | intros (H1 & H2 & _ & _ & _ & _ & H3)].
    inversion H1; inversion H2; subst. lia.
  - split.
    + intro H. inversion H; subst. repeat split; try reflexivity; try lia.
      * now apply He.
      * now apply Hg.
    + intros (H1 & H2 & H3 & _ & H4 & _). congruence.
Qed.

(** The checks pass exactly on the drafts valid for submission, with the
    fields of the draft; on every other draft they throw. *)
Lemma handleSubmit_checks_cases (st : FormState) :
  (submittable st /\
   exists ci co email guest,
     handleSubmit_checks st = Normal (ci, co, email, guest) /\
     checkIn (bookingDetails st) = Some ci /\ checkOut (bookingDetails st) = Some co /\
     guestEmail (bookingDetails st) = Some email /\
     guestName (bookingDetails st) = Some guest)
  \/
  (~ submittable st /\ exists message, handleSubmit_checks st = Thrown message).
Proof.
  unfold handleSubmit_checks.
  destruct (handleSubmit_guards st) as [[[[ci co] email] guest] | message] eqn:Hg; cbn [bindC].
  - apply handleSubmit_guards_Normal in Hg.
    destruct Hg as (Hci & Hco & He & Hne & Hn & Hnn & Hlt).
    destruct (someDayBooked_Normal st ci co) as (c & -> & Hc); [lia |]. cbn [bindC].
    destruct c.
    + right. split; [| eexists; reflexivity].
      intros (ci' & co' & e' & g' & Hci' & Hco' & _ & _ & _ & _ & _ & Hfree).
      apply Hfree. replace ci' with ci by congruence. replace co' with co by congruence.
      now apply Hc.
    + left. split.
      * exists ci, co, email, guest. repeat split; try assumption.
        intro Hb. apply Hc in Hb. discriminate.
      * exists ci, co, email, guest. repeat split; assumption.
  - right. split; [| eexists; reflexivity].
    intros (ci & co & e & g & Hci & Hco & He & Hne & Hn & Hnn & Hlt & _).
    assert (handleSubmit_guards st = Normal (ci, co, e, g)) as H
      by (apply handleSubmit_guards_Normal; repeat split; assumption).
    congruence.
Qed.

(** C5.  Submitting posts to the payment endpoint only when the draft has
    passed the re-validation (both dates and both guest fields present,
    check-out strictly after check-in, no booked date in the inclusive day
    range by the current booked dates), and then it posts once; when the
    re-validation fails an error message is set, nothing is posted, the
    page does not move, and in every case the draft keeps its values.  With
    the check-out unset the message is the one for a missing field. *)
Theorem handleSubmit_posts_only_after_revalidation
    (apartment : Apartment) (st : FormState) (fetch : CheckoutParams -> FetchOutcome) :
  let r := handleSubmit apartment st fetch in
  bookingDetails (afterSubmit r) = bookingDetails st /\
  (requests r <> [] -> submittable st) /\
  (submittable st -> exists params, requests r = [params]) /\
  (~ submittable st ->
     requests r = [] /\ location_href r = None /\
     exists message, formError (afterSubmit r) = Some message) /\
  (checkOut (bookingDetails st) = None ->
     requests r = [] /\
     formError (afterSubmit r) = Some "Please fill in all required fields").
Proof.
  intro r.
  assert (bookingDetails (afterSubmit r) = bookingDetails st) as Hkeep.
  { unfold r, handleSubmit. destruct (handleSubmit_try apartment st fetch) as [[url | m] posts];
      reflexivity. }
  assert (checkOut (bookingDetails st) = None ->
          requests r = [] /\
          formError (afterSubmit r) = Some "Please fill in all required fields") as Hmissing.
  { intro Hco. unfold r, handleSubmit, handleSubmit_try, handleSubmit_checks,
      handleSubmit_guards. rewrite Hco.
    destruct (checkIn (bookingDetails st)); cbn; split; reflexivity. }
  destruct (handleSubmit_checks_cases st)
    as [(Hok & ci & co & email & guest & Hrun & _) | (Hbad & message & Hrun)].
  - assert (requests r =
            [checkoutParams apartment st ci co email guest]) as Hreq.
    { unfold r, handleSubmit, handleSubmit_try. rewrite Hrun.
      destruct (fetch _) as [m | ok [url | m]]; [reflexivity | destruct ok; reflexivity ..]. }
    split; [exact Hkeep |]. split; [intros _; exact Hok |].
    split; [intros _; eexists; exact Hreq |].
    split; [intro Hbad; contradiction | exact Hmissing].
  - assert (requests r = [] /\ location_href r = None /\
            formError (afterSubmit r) = Some message) as (Hreq & Hloc & Herr).
    { unfold r, handleSubmit, handleSubmit_try. rewrite Hrun. repeat split. }
    split; [exact Hkeep |]. split; [intro Hne; congruence |].
    split; [intro Hok; contradiction |].
    split; [intros _; repeat split; try assumption; eexists; exact Herr | exact Hmissing].
Qed.


(** ** Order of the dates at the range check *)

Lemma dayNumber_addDays (t : Date) (n : Z) : dayNumber (addDays t n) = (dayNumber t + n)%Z.
Proof. unfold dayNumber, addDays. apply Z.div_add. discriminate. Qed.

Lemma lt_next_midnight (t : Date) : (t < parseISO_day (dayNumber t + 1))%Z.
Proof.
  unfold parseISO_day, dayNumber.
  pose proof (Z.mod_pos_bound t msPerDay msPerDay_pos).
  pose proof (Z.div_mod t msPerDay). lia.
Qed.

(** A day the check-out picker offers once a check-in is set is after the
    check-in. *)
Lemma offered_after_checkIn (ci date : Date) (excludeDates : list Date) :
  offered (addDays ci 1) excludeDates date = true -> (ci < date)%Z.
Proof.
  unfold offered. rewrite andb_true_iff, Z.leb_le, dayNumber_addDays.
  intros [Hday _].
  pose proof (lt_next_midnight ci).
  assert (parseISO_day (dayNumber ci + 1) <= date)%Z by now apply midnight_le_iff.
  lia.
Qed.

(** C9.  The range check is reached only with a start strictly before the
    end, and its enumeration never fails: on a date the pickers offer,
    [handleDateChange] enumerates the completed range only in that order (a
    check-in at or after the check-out has cleared it, and the check-out
    picker offers no day up to the check-in's) and returns normally; and
    [handleSubmit] has thrown its own error for a check-out at or before the
    check-in before it enumerates. *)
Theorem range_check_reached_only_in_order :
  (forall (now : Date) (st : FormState) (type : DateField) (date : Date)
          (newBookingDetails : BookingDetails) (start end_ : Date),
      pickable now st type date = true ->
      handleDateChange_endpoint st type date = inr newBookingDetails ->
      completedRange newBookingDetails = Some (start, end_) ->
      (start < end_)%Z /\ exists conflict, someDayBooked st start end_ = Normal conflict)
  /\
  (forall (now : Date) (st : FormState) (type : DateField) (date : Date),
      pickable now st type date = true ->
      exists st', handleDateChange st type (Some date) = Normal st')
  /\
  (forall (st : FormState) (ci co : Date) (email guest : string),
      handleSubmit_guards st = Normal (ci, co, email, guest) ->
      (ci < co)%Z /\ exists conflict, someDayBooked st ci co = Normal conflict)
  /\
  (forall (st : FormState) (ci co : Date),
      checkIn (bookingDetails st) = Some ci -> checkOut (bookingDetails st) = Some co ->
      (co <= ci)%Z ->
      handleSubmit_checks st = Thrown "Check-out date must be after check-in date"
      \/ handleSubmit_checks st = Thrown "Please fill in all required fields").
Proof.
  assert (forall now st type date nbd start end_,
             pickable now st type date = true ->
             handleDateChange_endpoint st type date = inr nbd ->
             completedRange nbd = Some (start, end_) ->
             (start < end_)%Z) as Horder.
  { intros now st type date nbd start end_ Hpick Hend Hrange.
    unfold handleDateChange_endpoint in Hend.
    destruct (isDateBooked st date); [destruct type; discriminate |].
    destruct type.
    - destruct (checkOut (bookingDetails st)) as [co |] eqn:Hco.
      + destruct (date >=? co)%Z eqn:Hge; inversion Hend; subst nbd;
          unfold completedRange in Hrange;
          cbn [withCheckIn withCheckOut checkIn checkOut] in Hrange.
        * discriminate.
        * rewrite Hco in Hrange. inversion Hrange; subst.
          now apply Zgeb_false_lt.
      + inversion Hend; subst nbd. unfold completedRange in Hrange.
        cbn [withCheckIn checkIn checkOut] in Hrange. rewrite Hco in Hrange. discriminate.
    - inversion Hend; subst nbd. unfold completedRange in Hrange.
      cbn [withCheckOut checkIn checkOut] in Hrange.
      destruct (checkIn (bookingDetails st)) as [ci |] eqn:Hci; [| discriminate].
      inversion Hrange; subst.
      unfold pickable, checkOutMinDate in Hpick. rewrite Hci in Hpick.
      eapply offered_after_checkIn, Hpick. }
  split; [| split; [| split]].
  - intros now st type date nbd start end_ Hpick Hend Hrange.
    pose proof (Horder _ _ _ _ _ _ _ Hpick Hend Hrange) as Hlt.
    split; [exact Hlt |].
    destruct (someDayBooked_Normal st start end_) as (c & Hc & _); [lia |].
    exists c. exact Hc.
  - intros now st type date Hpick. unfold handleDateChange.
    destruct (handleDateChange_endpoint st type date) as [rejected | nbd] eqn:Hend;
      [eexists; reflexivity |].
    destruct (completedRange nbd) as [[start end_] |] eqn:Hrange; [| eexists; reflexivity].
    pose proof (Horder _ _ _ _ _ _ _ Hpick Hend Hrange) as Hlt.
    destruct (someDayBooked_Normal st start end_) as (c & -> & _); [lia |].
    destruct c; eexists; reflexivity.
  - intros st ci co email guest Hg. apply handleSubmit_guards_Normal in Hg.
    destruct Hg as (_ & _ & _ & _ & _ & _ & Hlt). split; [exact Hlt |].
    destruct (someDayBooked_Normal st ci co) as (c & Hc & _); [lia |].
    exists c. exact Hc.
  - intros st ci co Hci Hco Hle. unfold handleSubmit_checks, handleSubmit_guards.
    rewrite Hci, Hco.
    destruct (negb (truthy (guestEmail (bookingDetails st)))
              || negb (truthy (guestName (bookingDetails st)))); [now right |].
    destruct (guestEmail (bookingDetails st)); [| now right].
    destruct (guestName (bookingDetails st)); [| now right].
    destruct (Z.leb_spec co ci); [now left | lia].
Qed.


(** ** A failed load *)

Lemma handleSubmit_ignores_error (apartment : Apartment) (st : FormState)
    (fetch : CheckoutParams -> FetchOutcome) (e : option string) :
  handleSubmit_try apartment (setError e st) fetch = handleSubmit_try apartment st fetch.
Proof. reflexivity. Qed.

(** C3, as the form behaves.  When the load of the booked intervals fails,
    the form sets the message "Failed to fetch available dates" and leaves
    the booked dates as they were, so that from a fresh form no date is
    reported booked; submission is not held back: it posts exactly what it
    would have posted had no load been attempted. *)
Theorem failed_load_leaves_every_date_available
    (resp : PostgrestResponse (list BookingRow)) (apartment : Apartment)
    (st : FormState) (fetch : CheckoutParams -> FetchOutcome) :
  loadFailed resp ->
  let st' := fetchBookedDates resp st in
  st' = setError (Some "Failed to fetch available dates") st /\
  bookedDates st' = bookedDates st /\
  (bookedDates st = [] -> forall d, isDateBooked st' d = false) /\
  requests (handleSubmit apartment st' fetch) = requests (handleSubmit apartment st fetch).
Proof.
  intros (message & Hfail) st'.
  assert (st' = setError (Some "Failed to fetch available dates") st) as Hst
    by (unfold st', fetchBookedDates; now rewrite Hfail).
  rewrite Hst. repeat split.
  intros Hempty d. unfold isDateBooked. cbn [setError bookedDates]. now rewrite Hempty.
Qed.

Lemma failed_load_leaves_every_date_available_witness :
  let apartment := {| id := "a1"; name := "Gintaras"; price_per_night := 100 |} in
  let resp := {| data := None; error := Some "fetch failed" |} in
  loadFailed resp /\
  fetchBookedDates resp (initialState apartment)
  = setError (Some "Failed to fetch available dates") (initialState apartment).
Proof.
  intros apartment resp.
  assert (loadFailed resp) as Hfail by (exists "fetch failed"; reflexivity).
  split; [exact Hfail |].
  exact (proj1 (failed_load_leaves_every_date_available resp apartment
                  (initialState apartment) (fun _ => FetchRejected "offline") Hfail)).
Defined.

(** C3, as stated, fails: after a failed load a complete draft over days
    the form knows nothing about is not reported booked on any of its days,
    and submitting it posts to the payment endpoint and follows the
    returned URL. *)
Lemma failed_load_does_not_block_submission :
  let apartment := {| id := "a1"; name := "Gintaras"; price_per_night := 100 |} in
  let draft := {| apartmentId := "a1";
                  checkIn := Some (parseISO_day 19875);
                  checkOut := Some (parseISO_day 19877);
                  guestName := Some "Ona"; guestEmail := Some "ona@example.org" |} in
  let st := fetchBookedDates {| data := None; error := Some "fetch failed" |}
              (setBookingDetails draft (initialState apartment)) in
  let r := handleSubmit apartment st (fun _ => FetchResponded true (Normal "https://pay/1")) in
  bookedDates st = [] /\
  isDateBooked st (parseISO_day 19875) = false /\
  isDateBooked st (parseISO_day 19876) = false /\
  isDateBooked st (parseISO_day 19877) = false /\
  List.length (requests r) = 1%nat /\
  map unit_amount (requests r) = [20000%Z] /\
  location_href r = Some "https://pay/1".
Proof. vm_compute. repeat split. Qed.


(** ** Coupons *)

(** A coupon query answers with a row and no error, or with an error and
    no row. *)
Lemma queryCoupon_cases (store : CouponStore) (c : string) (now : Date) :
  (exists row, queryCoupon store c now = {| data := Some row; error := None |}) \/
  (exists message, queryCoupon store c now = {| data := None; error := Some message |}).
Proof.
  destruct store as [rows | m]; cbn [queryCoupon]; [| right; eexists; reflexivity].
  unfold single. destruct (filter (couponMatches c now) rows) as [| row [| row' rest]].
  - right; eexists; reflexivity.
  - left; eexists; reflexivity.
  - right; eexists; reflexivity.
Qed.

(** The branch of [validateCoupon] after the query that reports an invalid
    or expired code is the one for a response with neither row nor error. *)
Lemma validateCoupon_response_no_row_no_error (st : FormState) :
  formError (snd (validateCoupon_response {| data := None; error := None |} st))
  = Some "Invalid or expired coupon code".
Proof. reflexivity. Qed.

Lemma validateCoupon_failure (store : CouponStore) (now : Date) (c : string) (st : FormState) :
  data (queryCoupon store c now) = None ->
  validateCoupon store now c st
  = (false,
     setIsValidatingCoupon false
       (setAppliedCoupon None
          (setError (Some "Failed to validate coupon")
             (setError None (setIsValidatingCoupon true st))))).
Proof.
  intro Hnone. unfold validateCoupon.
  destruct (queryCoupon_cases store c now) as [(row & Hq) | (m & Hq)];
    rewrite Hq in *; [discriminate | reflexivity].
Qed.

Lemma handleApplyCoupon_nonempty (store : CouponStore) (now : Date) (st : FormState) :
  trim (couponCode st) <> EmptyString ->
  handleApplyCoupon store now st
  = {| afterAttempt := snd (validateCoupon store now (trim (couponCode st)) st);
       queried := [trim (couponCode st)] |}.
Proof.
  intro Hne. unfold handleApplyCoupon.
  rewrite (proj2 (truthy_Some _) Hne). reflexivity.
Qed.

Lemma handleApplyCoupon_empty (store : CouponStore) (now : Date) (st : FormState) :
  trim (couponCode st) = EmptyString ->
  handleApplyCoupon store now st
  = {| afterAttempt := setError (Some "Please enter a coupon code") st; queried := [] |}.
Proof. intro He. unfold handleApplyCoupon. rewrite He. reflexivity. Qed.

(** C4, as the form behaves.  A coupon validation attempt that fails (the
    query returns no coupon: no match, or the store could not be asked)
    clears the applied coupon and sets an error message, in the form and in
    the calendar's coupon box alike, and leaves the booking draft alone;
    only the refusal of an empty code leaves the applied coupon as it
    was. *)
Theorem failed_validation_clears_applied_coupon
    (t : string -> string) (onCouponApply : bool)
    (store : CouponStore) (now : Date) (c : string)
    (st : FormState) (cal : BookingCalendar.CalendarState) :
  data (queryCoupon store c now) = None ->
  (let r := validateCoupon store now c st in
   fst r = false /\
   appliedCoupon (snd r) = None /\
   formError (snd r) = Some "Failed to validate coupon" /\
   bookingDetails (snd r) = bookingDetails st)
  /\
  (trim (BookingCalendar.couponCode cal) = c -> c <> EmptyString ->
   let r := BookingCalendar.validateCoupon t onCouponApply store now cal in
   BookingCalendar.appliedCoupon (BookingCalendar.afterAttempt r) = None /\
   BookingCalendar.couponError (BookingCalendar.afterAttempt r) = Some (t "coupon.invalid"))
  /\
  (trim (couponCode st) = EmptyString ->
   let r := handleApplyCoupon store now st in
   appliedCoupon (afterAttempt r) = appliedCoupon st /\
   formError (afterAttempt r) = Some "Please enter a coupon code")
  /\
  (trim (BookingCalendar.couponCode cal) = EmptyString ->
   let r := BookingCalendar.validateCoupon t onCouponApply store now cal in
   BookingCalendar.appliedCoupon (BookingCalendar.afterAttempt r)
   = BookingCalendar.appliedCoupon cal /\
   BookingCalendar.couponError (BookingCalendar.afterAttempt r)
   = Some (t "please.enter.coupon")).
Proof.
  intro Hnone. split; [| split; [| split]].
  - rewrite (validateCoupon_failure store now c st Hnone). repeat split.
  - intros Hc Hne r. unfold r, BookingCalendar.validateCoupon. rewrite Hc.
    rewrite (proj2 (truthy_Some _) Hne). cbn [negb].
    unfold BookingCalendar.validateCoupon_response.
    destruct (queryCoupon_cases store c now) as [(row & Hq) | (m & Hq)];
      rewrite Hq in *; [discriminate | split; reflexivity].
  - intros He r. unfold r. rewrite (handleApplyCoupon_empty store now st He).
    split; reflexivity.
  - intros He r. unfold r, BookingCalendar.validateCoupon. rewrite He.
    split; reflexivity.
Qed.

Lemma failed_validation_clears_applied_coupon_witness :
  let summer := {| code := "SUMMER10"; discount_percent := 10; is_active := true;
                   expires_at := parseISO_day 20000 |} in
  let st := setAppliedCoupon (Some summer)
              (initialState {| id := "a1"; name := "Gintaras"; price_per_night := 100 |}) in
  data (queryCoupon (StoreDown "fetch failed") "WINTER" (parseISO_day 19875)) = None /\
  appliedCoupon (snd (validateCoupon (StoreDown "fetch failed") (parseISO_day 19875) "WINTER" st))
  = None.
Proof.
  intros summer st. split; [reflexivity |].
  exact (proj1 (proj2 (proj1
    (failed_validation_clears_applied_coupon (fun k => k) true
       (StoreDown "fetch failed") (parseISO_day 19875) "WINTER" st
       {| BookingCalendar.couponCode := "WINTER"; BookingCalendar.isValidatingCoupon := false;
          BookingCalendar.couponError := None; BookingCalendar.appliedCoupon := None |}
       eq_refl)))).
Defined.

(** C4, as stated, fails: with a 10% coupon applied, trying the code
    EXPIRED99, whose coupon expired in the past, ends with no coupon
    applied. *)
Lemma expired_code_drops_previous_coupon :
  let summer := {| code := "SUMMER10"; discount_percent := 10; is_active := true;
                   expires_at := parseISO_day 20000 |} in
  let expired := {| code := "EXPIRED99"; discount_percent := 99; is_active := true;
                    expires_at := parseISO_day 19000 |} in
  let st := setCouponCode "EXPIRED99"
              (setAppliedCoupon (Some summer)
                 (initialState {| id := "a1"; name := "Gintaras"; price_per_night := 100 |})) in
  let r := handleApplyCoupon (StoreUp [summer; expired]) (parseISO_day 19875) st in
  appliedCoupon st = Some summer /\
  appliedCoupon (afterAttempt r) = None /\
  appliedCoupon (afterAttempt r) <> appliedCoupon st.
Proof. vm_compute. repeat split. discriminate. Qed.

(** C10.  When no row of the table matches the code, the single-row query
    answers with an error, so [validateCoupon] goes through its [catch] and
    leaves exactly what a store that cannot be reached leaves, with the
    message "Failed to validate coupon"; so does applying a non-empty typed
    code.  No query at all sends it to the branch that reports "Invalid or
    expired coupon code": no response has neither row nor error. *)
Theorem no_match_reported_as_lookup_failure
    (rows : list Coupon) (now : Date) (c : string) (st : FormState) :
  filter (couponMatches c now) rows = [] ->
  error (queryCoupon (StoreUp rows) c now) <> None /\
  formError (snd (validateCoupon (StoreUp rows) now c st)) = Some "Failed to validate coupon" /\
  (forall message,
      validateCoupon (StoreUp rows) now c st = validateCoupon (StoreDown message) now c st) /\
  (trim (couponCode st) = c -> c <> EmptyString ->
   formError (afterAttempt (handleApplyCoupon (StoreUp rows) now st))
   = Some "Failed to validate coupon") /\
  (forall store' now' c' st',
      ~ (data (queryCoupon store' c' now') = None /\ error (queryCoupon store' c' now') = None) /\
      formError (snd (validateCoupon store' now' c' st'))
      <> Some "Invalid or expired coupon code").
Proof.
  intro Hnomatch.
  assert (data (queryCoupon (StoreUp rows) c now) = None) as Hnone
    by (cbn [queryCoupon]; rewrite Hnomatch; reflexivity).
  split; [cbn [queryCoupon]; rewrite Hnomatch; discriminate |].
  split; [now rewrite (validateCoupon_failure _ _ _ _ Hnone) |].
  split; [intro m; now rewrite (validateCoupon_failure _ _ _ _ Hnone) |].
  split.
  - intros Hc Hne. rewrite handleApplyCoupon_nonempty by congruence.
    cbn [afterAttempt]. rewrite Hc. now rewrite (validateCoupon_failure _ _ _ _ Hnone).
  - intros store' now' c' st'. unfold validateCoupon.
    destruct (queryCoupon_cases store' c' now') as [(row & Hq) | (m & Hq)]; rewrite Hq;
      (split; [intros [H1 H2]; discriminate | discriminate]).
Qed.

Lemma no_match_reported_as_lookup_failure_witness :
  let summer := {| code := "SUMMER10"; discount_percent := 10; is_active := true;
                   expires_at := parseISO_day 20000 |} in
  let st := initialState {| id := "a1"; name := "Gintaras"; price_per_night := 100 |} in
  filter (couponMatches "NOPE" (parseISO_day 19875)) [summer] = [] /\
  formError (snd (validateCoupon (StoreUp [summer]) (parseISO_day 19875) "NOPE" st))
  = Some "Failed to validate coupon".
Proof.
  intros summer st. split; [reflexivity |].
  exact (proj1 (proj2
    (no_match_reported_as_lookup_failure [summer] (parseISO_day 19875) "NOPE" st eq_refl))).
Defined.

(** C8 at a code no coupon matches: the typed code is trimmed and the store
    is asked once, but the form then shows the message of a failed lookup,
    the very state an unreachable store leaves, not the one for an invalid
    or expired code. *)
Lemma unknown_code_shows_lookup_failure :
  let summer := {| code := "SUMMER10"; discount_percent := 10; is_active := true;
                   expires_at := parseISO_day 20000 |} in
  let st := setCouponCode " NOPE "
              (initialState {| id := "a1"; name := "Gintaras"; price_per_night := 100 |}) in
  let r := handleApplyCoupon (StoreUp [summer]) (parseISO_day 19875) st in
  queried r = ["NOPE"] /\
  formError (afterAttempt r) = Some "Failed to validate coupon" /\
  formError (afterAttempt r) <> Some "Invalid or expired coupon code" /\
  afterAttempt r
  = afterAttempt (handleApplyCoupon (StoreDown "fetch failed") (parseISO_day 19875) st).
Proof. vm_compute. repeat split. discriminate. Qed.


(** ** Price *)





(** ** Worked sessions *)

(** A form for the first apartment with the interval 2024-06-01 to
    2024-06-03 loaded (days 19875 to 19877 of the epoch). *)
Lemma session_load :
  let apartment := {| id := "a1"; name := "Gintaras"; price_per_night := 100 |} in
  bookedDates
    (fetchBookedDates
       (loaded [ {| check_in := parseISO_day 19875; check_out := parseISO_day 19877 |} ])
       (initialState apartment))
  = [parseISO_day 19875; parseISO_day 19876; parseISO_day 19877].
Proof. vm_compute. reflexivity. Qed.

(** Scenario A: a check-in on 2024-06-02 is refused; 2024-06-05 to
    2024-06-07 is accepted. *)
Lemma session_scenario_A :
  let apartment := {| id := "a1"; name := "Gintaras"; price_per_night := 100 |} in
  let st := fetchBookedDates
              (loaded [ {| check_in := parseISO_day 19875; check_out := parseISO_day 19877 |} ])
              (initialState apartment) in
  handleDateChange st checkInField (Some (parseISO_day 19876))
  = Normal (setError (Some "This date is already booked") st) /\
  exists st1 st2,
    handleDateChange st checkInField (Some (parseISO_day 19879)) = Normal st1 /\
    handleDateChange st1 checkOutField (Some (parseISO_day 19881)) = Normal st2 /\
    checkIn (bookingDetails st2) = Some (parseISO_day 19879) /\
    checkOut (bookingDetails st2) = Some (parseISO_day 19881) /\
    formError st2 = None.
Proof.
  split; [vm_compute; reflexivity |].
  eexists; eexists. split; [vm_compute; reflexivity |].
  split; [vm_compute; reflexivity |]. repeat split.
Qed.

Lemma handleSubmit_posts_only_after_revalidation_witness :
  let apartment := {| id := "a1"; name := "Gintaras"; price_per_night := 100 |} in
  let draft := {| apartmentId := "a1";
                  checkIn := Some (parseISO_day 19879);
                  checkOut := Some (parseISO_day 19881);
                  guestName := None; guestEmail := None |} in
  let st := onGuestEmailChange "ona@example.org"
              (onGuestNameChange "Ona"
                 (setBookingDetails draft (initialState apartment))) in
  let fetch := fun _ : CheckoutParams => FetchResponded true (Normal "https://pay/1") in
  submittable st /\
  exists params, requests (handleSubmit apartment st fetch) = [params].
Proof.
  intros apartment draft st fetch.
  assert (submittable st) as Hok.
  { exists (parseISO_day 19879), (parseISO_day 19881), "ona@example.org", "Ona".
    repeat split; try discriminate.
    intros (d & _ & Hb). discriminate Hb. }
  split; [exact Hok |].
  exact (proj1 (proj2 (proj2
    (handleSubmit_posts_only_after_revalidation apartment st fetch))) Hok).
Defined.

Lemma range_check_reached_only_in_order_witness :
  let apartment := {| id := "a1"; name := "Gintaras"; price_per_night := 100 |} in
  let draft := {| apartmentId := "a1";
                  checkIn := Some (parseISO_day 19879 + 43200000);
                  checkOut := None; guestName := None; guestEmail := None |} in
  let st := setBookingDetails draft (initialState apartment) in
  let now := (parseISO_day 19870 + 1000)%Z in
  let date := (parseISO_day 19880 + 3600000)%Z in
  pickable now st checkOutField date = true /\
  (parseISO_day 19879 + 43200000 < date)%Z /\
  exists conflict,
    someDayBooked st (parseISO_day 19879 + 43200000) date = Normal conflict.
Proof.
  intros apartment draft st now date.
  assert (pickable now st checkOutField date = true) as Hpick by reflexivity.
  split; [exact Hpick |].
  exact (proj1 range_check_reached_only_in_order now st checkOutField date
           (withCheckOut (Some date) draft) (parseISO_day 19879 + 43200000)%Z date
           Hpick eq_refl eq_refl).
Defined.


(** * Further properties of the components *)

(** ** Accepting a date *)

Lemma someDayBooked_ordered (st : FormState) (start end_ : Date) (conflict : bool) :
  someDayBooked st start end_ = Normal conflict -> (start <= end_)%Z.
Proof.
  unfold someDayBooked, eachDayOfInterval.
  destruct (Z.ltb_spec end_ start); [discriminate | lia].
Qed.

Lemma someDayBooked_false (st : FormState) (start end_ : Date) :
  (start <= end_)%Z -> ~ bookedWithin st start end_ ->
  someDayBooked st start end_ = Normal false.
Proof.
  intros Hle Hfree.
  destruct (someDayBooked_Normal st start end_ Hle) as (c & Hc & Hiff).
  destruct c; [exfalso; apply Hfree; now apply Hiff | exact Hc].
Qed.

(** X1.  A check-in chosen at or after the current check-out, on a day that
    is not booked, is accepted and clears the check-out; the guest fields
    stay and the error message is cleared. *)
Theorem checkIn_not_before_checkOut_clears_it (st : FormState) (date co : Date) :
  isDateBooked st date = false ->
  checkOut (bookingDetails st) = Some co ->
  (co <= date)%Z ->
  handleDateChange st checkInField (Some date)
  = Normal (setError None
              (setBookingDetails
                 (withCheckOut None (withCheckIn (Some date) (bookingDetails st))) st)).
Proof.
  intros Hfree Hco Hle. unfold handleDateChange, handleDateChange_endpoint.
  rewrite Hfree, Hco.
  destruct (Z.geb_spec date co) as [_ | Hlt]; [reflexivity | lia].
Qed.

Lemma checkIn_not_before_checkOut_clears_it_witness :
  let st := setBookingDetails
              {| apartmentId := "a1"; checkIn := Some (parseISO_day 19875);
                 checkOut := Some (parseISO_day 19877);
                 guestName := Some "Ona"; guestEmail := None |}
              (initialState {| id := "a1"; name := "Gintaras"; price_per_night := 100 |}) in
  exists st',
    handleDateChange st checkInField (Some (parseISO_day 19880)) = Normal st' /\
    checkIn (bookingDetails st') = Some (parseISO_day 19880) /\
    checkOut (bookingDetails st') = None /\
    guestName (bookingDetails st') = Some "Ona".
Proof.
  intro st. eexists. split.
  - apply (checkIn_not_before_checkOut_clears_it st (parseISO_day 19880) (parseISO_day 19877));
      [reflexivity | reflexivity | vm_compute; discriminate].
  - repeat split.
Defined.

(** X2.  A selection that does not fail validation, and that does not put
    the check-out before the check-in, is accepted: the chosen field takes
    the date, the guest fields and the apartment stay, and the error
    message is cleared. *)
Theorem handleDateChange_accepts (st : FormState) (type : DateField) (date : Date) :
  ~ selectionFails st type date ->
  (forall ci, type = checkOutField -> checkIn (bookingDetails st) = Some ci -> (ci <= date)%Z) ->
  exists newBookingDetails,
    handleDateChange st type (Some date)
    = Normal (setError None (setBookingDetails newBookingDetails st)) /\
    match type with
    | checkInField => checkIn newBookingDetails = Some date
    | checkOutField =>
        checkOut newBookingDetails = Some date /\
        checkIn newBookingDetails = checkIn (bookingDetails st)
    end /\
    guestName newBookingDetails = guestName (bookingDetails st) /\
    guestEmail newBookingDetails = guestEmail (bookingDetails st) /\
    apartmentId newBookingDetails = apartmentId (bookingDetails st).
Proof.
  intros Hok Hord. unfold handleDateChange, handleDateChange_endpoint.
  destruct (isDateBooked st date) eqn:Hdate; [exfalso; apply Hok; now left |].
  destruct type.
  - destruct (checkOut (bookingDetails st)) as [co |] eqn:Hco.
    + destruct (Z.geb_spec date co) as [Hge | Hlt].
      * eexists. split; [reflexivity |]. repeat split.
      * unfold completedRange. cbn [withCheckIn checkIn checkOut]. rewrite Hco.
        rewrite someDayBooked_false; [| lia |].
        -- eexists. split; [reflexivity |]. repeat split.
        -- intro Hb. apply Hok. right. exists co. auto.
    + unfold completedRange. cbn [withCheckIn checkIn checkOut]. rewrite Hco.
      eexists. split; [reflexivity |]. repeat split.
  - unfold completedRange. cbn [withCheckOut checkIn checkOut].
    destruct (checkIn (bookingDetails st)) as [ci |] eqn:Hci.
    + rewrite someDayBooked_false; [| now apply Hord |].
      * eexists. split; [reflexivity |]. cbn. rewrite Hci. repeat split.
      * intro Hb. apply Hok. right. exists ci. auto.
    + eexists. split; [reflexivity |]. cbn. rewrite Hci. repeat split.
Qed.

Lemma handleDateChange_accepts_witness :
  let st := setBookingDetails
              {| apartmentId := "a1"; checkIn := Some (parseISO_day 19879);
                 checkOut := None; guestName := None; guestEmail := None |}
              (setBookedDates [parseISO_day 19876]
                 (initialState {| id := "a1"; name := "Gintaras"; price_per_night := 100 |})) in
  exists newBookingDetails,
    handleDateChange st checkOutField (Some (parseISO_day 19881))
    = Normal (setError None (setBookingDetails newBookingDetails st)) /\
    checkOut newBookingDetails = Some (parseISO_day 19881).
Proof.
  intro st.
  assert (~ selectionFails st checkOutField (parseISO_day 19881)) as Hok.
  { intros [Hb | (ci & Hci & d & Hd & Hb)]; [discriminate Hb |].
    assert (Some (parseISO_day 19879) = Some ci) as E by exact Hci.
    injection E as <-.
    apply isDateBooked_true_iff in Hb. destruct Hb as (b & [<- | []] & Hday).
    change (dayNumber (parseISO_day 19876) = dayNumber d) in Hday.
    rewrite !dayNumber_midnight in *.
    change (19879 <= dayNumber d <= 19881)%Z in Hd. lia. }
  destruct (handleDateChange_accepts st checkOutField (parseISO_day 19881) Hok)
    as (nbd & Hrun & (Hco & _) & _).
  - intros ci _ Hci.
    assert (Some (parseISO_day 19879) = Some ci) as E by exact Hci.
    injection E as <-. vm_compute. discriminate.
  - exists nbd. split; assumption.
Defined.

(** X3.  A date a picker of BookingForm.tsx offers is never refused as an
    endpoint that is booked: the handler returns, and the only message it
    can leave is the one for a booked day inside the range. *)
Theorem picked_date_never_booked_endpoint
    (now : Date) (st : FormState) (type : DateField) (date : Date) :
  pickable now st type date = true ->
  isDateBooked st date = false /\
  exists st',
    handleDateChange st type (Some date) = Normal st' /\
    (formError st' = None \/
     formError st' = Some "Some days in this range are already booked").
Proof.
  intro Hpick.
  assert (isDateBooked st date = false) as Hfree.
  { unfold pickable, offered in Hpick. unfold isDateBooked.
    destruct type; apply andb_true_iff in Hpick; destruct Hpick as [_ H];
      now apply negb_true_iff in H. }
  split; [exact Hfree |].
  unfold handleDateChange, handleDateChange_endpoint. rewrite Hfree.
  assert (forall nbd start end_,
             completedRange nbd = Some (start, end_) -> (start <= end_)%Z ->
             exists st',
               match completedRange nbd with
               | Some (start, end_) =>
                   conflict <- someDayBooked st start end_ ;;
                   if (conflict : bool)
                   then Normal (setError (Some "Some days in this range are already booked") st)
                   else Normal (setError None (setBookingDetails nbd st))
               | None => Normal (setError None (setBookingDetails nbd st))
               end = Normal st' /\
               (formError st' = None \/
                formError st' = Some "Some days in this range are already booked")) as Hrange.
  { intros nbd start end_ -> Hle.
    destruct (someDayBooked_Normal st start end_ Hle) as (c & -> & _). cbn [bindC].
    destruct c; eexists; (split; [reflexivity |]); [now right | now left]. }
  destruct type.
  - destruct (checkOut (bookingDetails st)) as [co |] eqn:Hco.
    + destruct (Z.geb_spec date co) as [Hge | Hlt].
      * eexists. split; [reflexivity | now left].
      * apply (Hrange _ date co); [| lia].
        unfold completedRange. cbn [withCheckIn checkIn checkOut]. now rewrite Hco.
    + unfold completedRange. cbn [withCheckIn checkIn checkOut]. rewrite Hco.
      eexists. split; [reflexivity | now left].
  - destruct (checkIn (bookingDetails st)) as [ci |] eqn:Hci.
    + apply (Hrange _ ci date).
      * unfold completedRange. cbn [withCheckOut checkIn checkOut]. now rewrite Hci.
      * unfold pickable, checkOutMinDate in Hpick. rewrite Hci in Hpick.
        apply offered_after_checkIn in Hpick. lia.
    + unfold completedRange. cbn [withCheckOut checkIn checkOut]. rewrite Hci.
      eexists. split; [reflexivity | now left].
Qed.

Lemma picked_date_never_booked_endpoint_witness :
  let st := setBookedDates [parseISO_day 19876]
              (initialState {| id := "a1"; name := "Gintaras"; price_per_night := 100 |}) in
  pickable (parseISO_day 19870) st checkInField (parseISO_day 19879) = true /\
  isDateBooked st (parseISO_day 19879) = false.
Proof.
  intro st.
  assert (pickable (parseISO_day 19870) st checkInField (parseISO_day 19879) = true) as Hpick
    by reflexivity.
  split; [exact Hpick |].
  exact (proj1 (picked_date_never_booked_endpoint _ st checkInField _ Hpick)).
Defined.


(** ** Sessions *)

Lemma fetchBookedDates_bookingDetails (resp : PostgrestResponse (list BookingRow))
    (st : FormState) :
  bookingDetails (fetchBookedDates resp st) = bookingDetails st.
Proof. unfold fetchBookedDates. destruct (fetchBookedDates_try resp); reflexivity. Qed.

Lemma handleSubmit_keeps_draft (apartment : Apartment) (st : FormState)
    (fetch : CheckoutParams -> FetchOutcome) :
  bookingDetails (afterSubmit (handleSubmit apartment st fetch)) = bookingDetails st /\
  bookedDates (afterSubmit (handleSubmit apartment st fetch)) = bookedDates st.
Proof.
  unfold handleSubmit.
  destruct (handleSubmit_try apartment st fetch) as [[url | m] posts]; split; reflexivity.
Qed.

Lemma bookedWithin_same_dates (st st' : FormState) (start end_ : Date) :
  bookedDates st' = bookedDates st ->
  bookedWithin st' start end_ <-> bookedWithin st start end_.
Proof.
  intro H. unfold bookedWithin, isDateBooked. rewrite H. tauto.
Qed.

(** How [handleDateChange] can return: the draft as it was, or the new
    draft, whose completed range is then in order and free. *)
Lemma handleDateChange_Normal (st : FormState) (type : DateField) (date : Date)
    (st' : FormState) :
  handleDateChange st type (Some date) = Normal st' ->
  bookedDates st' = bookedDates st /\
  (bookingDetails st' = bookingDetails st \/
   exists newBookingDetails,
     handleDateChange_endpoint st type date = inr newBookingDetails /\
     bookingDetails st' = newBookingDetails /\
     forall start end_,
       completedRange newBookingDetails = Some (start, end_) ->
       (start <= end_)%Z /\ ~ bookedWithin st start end_).
Proof.
  unfold handleDateChange.
  destruct (handleDateChange_endpoint st type date) as [rejected | nbd] eqn:Hend.
  - intro H. injection H as <-.
    unfold handleDateChange_endpoint in Hend.
    destruct (isDateBooked st date), type; try discriminate;
      try (destruct (checkOut (bookingDetails st)) as [co |];
           [destruct (date >=? co)%Z |]; discriminate);
      injection Hend as <-; split; [reflexivity | now left | reflexivity | now left].
  - destruct (completedRange nbd) as [[start end_] |] eqn:Hrange.
    + destruct (someDayBooked st start end_) as [c | m] eqn:Hc; cbn [bindC]; [| discriminate].
      pose proof (someDayBooked_ordered _ _ _ _ Hc) as Hle.
      destruct (someDayBooked_Normal st start end_ Hle) as (c' & Hc' & Hiff).
      assert (c' = c) by congruence. subst c'.
      destruct c; intro H; injection H as <-; (split; [reflexivity |]); [now left | right].
      exists nbd. split; [reflexivity |]. split; [reflexivity |].
      intros s e Hse. rewrite Hrange in Hse. injection Hse as <- <-.
      split; [exact Hle | intro Hb; apply Hiff in Hb; discriminate].
    + intro H. injection H as <-. split; [reflexivity | right].
      exists nbd. split; [reflexivity |]. split; [reflexivity |].
      intros s e Hse. rewrite Hrange in Hse. discriminate.
Qed.

Lemma endpoint_range_in_order (now : Date) (st : FormState) (type : DateField) (date : Date)
    (newBookingDetails : BookingDetails) (start end_ : Date) :
  pickable now st type date = true ->
  handleDateChange_endpoint st type date = inr newBookingDetails ->
  completedRange newBookingDetails = Some (start, end_) ->
  (start < end_)%Z.
Proof.
  intros Hpick Hend Hrange. unfold handleDateChange_endpoint in Hend.
  destruct (isDateBooked st date); [destruct type; discriminate |].
  unfold completedRange in Hrange. destruct type.
  - destruct (checkOut (bookingDetails st)) as [co |] eqn:Hco.
    + destruct (Z.geb_spec date co) as [Hge | Hlt]; injection Hend as <-;
        cbn [withCheckIn withCheckOut checkIn checkOut] in Hrange; [discriminate |].
      rewrite Hco in Hrange. injection Hrange as <- <-. exact Hlt.
    + injection Hend as <-. cbn [withCheckIn checkIn checkOut] in Hrange.
      rewrite Hco in Hrange. discriminate.
  - injection Hend as <-. cbn [withCheckOut checkIn checkOut] in Hrange.
    destruct (checkIn (bookingDetails st)) as [ci |] eqn:Hci; [| discriminate].
    injection Hrange as <- <-.
    unfold pickable, checkOutMinDate in Hpick. rewrite Hci in Hpick.
    eapply offered_after_checkIn, Hpick.
Qed.

Lemma completedRange_Some (bd : BookingDetails) (ci co : Date) :
  checkIn bd = Some ci -> checkOut bd = Some co -> completedRange bd = Some (ci, co).
Proof. intros H1 H2. unfold completedRange. now rewrite H1, H2. Qed.

Lemma step_keeps_order (apartment : Apartment) (st : FormState) (e : Event) (st' : FormState) :
  step apartment st e st' -> orderedDraft st -> orderedDraft st'.
Proof.
  intros Hstep Hord.
  destruct Hstep as [st resp | st now type | st now type date st' Hpick Hrun
                     | st value | st value | st fetch].
  - unfold orderedDraft. rewrite fetchBookedDates_bookingDetails. exact Hord.
  - exact Hord.
  - destruct (handleDateChange_Normal _ _ _ _ Hrun) as (_ & [Hsame | (nbd & Hend & Hbd & _)]).
    + unfold orderedDraft. rewrite Hsame. exact Hord.
    + intros ci co Hci Hco. rewrite Hbd in Hci, Hco.
      exact (endpoint_range_in_order now st type date nbd ci co Hpick Hend
               (completedRange_Some nbd ci co Hci Hco)).
  - exact Hord.
  - exact Hord.
  - unfold orderedDraft. rewrite (proj1 (handleSubmit_keeps_draft apartment st fetch)).
    exact Hord.
Qed.

Lemma step_keeps_free (apartment : Apartment) (st : FormState) (e : Event) (st' : FormState) :
  step apartment st e st' -> isLoaded e = false -> freeDraft st ->
  freeDraft st' /\ bookedDates st' = bookedDates st.
Proof.
  intros Hstep Hquiet Hfree.
  destruct Hstep as [st resp | st now type | st now type date st' Hpick Hrun
                     | st value | st value | st fetch]; try discriminate.
  - split; [exact Hfree | reflexivity].
  - destruct (handleDateChange_Normal _ _ _ _ Hrun)
      as (Hdates & [Hsame | (nbd & Hend & Hbd & Hrange)]).
    + split; [| exact Hdates]. intros ci co Hci Hco.
      rewrite (bookedWithin_same_dates st st' ci co Hdates).
      rewrite Hsame in Hci, Hco. now apply Hfree.
    + split; [| exact Hdates]. intros ci co Hci Hco.
      rewrite (bookedWithin_same_dates st st' ci co Hdates).
      rewrite Hbd in Hci, Hco.
      apply (Hrange ci co). now apply completedRange_Some.
  - split; [exact Hfree | reflexivity].
  - split; [exact Hfree | reflexivity].
  - destruct (handleSubmit_keeps_draft apartment st fetch) as [Hbd Hdates].
    split; [| exact Hdates]. intros ci co Hci Hco.
    rewrite (bookedWithin_same_dates st _ ci co Hdates).
    rewrite Hbd in Hci, Hco. now apply Hfree.
Qed.

(** X4.  However the events of a session of BookingForm.tsx follow one
    another, whenever the draft holds both dates the check-out is strictly
    after the check-in. *)
Theorem session_keeps_dates_in_order
    (apartment : Apartment) (es : list Event) (st : FormState) :
  run apartment (initialState apartment) es st -> orderedDraft st.
Proof.
  assert (forall st0 st', run apartment st0 es st' -> orderedDraft st0 -> orderedDraft st') as H.
  { induction es as [| e es IH]; intros st0 st' Hrun Hord; inversion Hrun; subst.
    - exact Hord.
    - eapply IH; [eassumption |]. eapply step_keeps_order; eassumption. }
  intro Hrun. apply (H _ _ Hrun). intros ci co Hci. discriminate Hci.
Qed.

Lemma session_keeps_dates_in_order_witness :
  let apartment := {| id := "a1"; name := "Gintaras"; price_per_night := 100 |} in
  let es := [ Picked (parseISO_day 19870) checkOutField (Some (parseISO_day 19877));
              Picked (parseISO_day 19870) checkInField (Some (parseISO_day 19875)) ] in
  exists st,
    run apartment (initialState apartment) es st /\
    checkIn (bookingDetails st) = Some (parseISO_day 19875) /\
    checkOut (bookingDetails st) = Some (parseISO_day 19877) /\
    orderedDraft st.
Proof.
  intros apartment es.
  assert (exists st, run apartment (initialState apartment) es st /\
                     checkIn (bookingDetails st) = Some (parseISO_day 19875) /\
                     checkOut (bookingDetails st) = Some (parseISO_day 19877))
    as (st & Hrun & Hci & Hco).
  { eexists. split.
    - eapply run_cons; [apply step_picked; [| vm_compute]; reflexivity |].
      eapply run_cons; [apply step_picked; [| vm_compute]; reflexivity |].
      apply run_nil.
    - split; reflexivity. }
  exists st. repeat split; try assumption.
  exact (session_keeps_dates_in_order apartment es st Hrun).
Defined.

Lemma run_keeps_order (apartment : Apartment) (es : list Event) :
  forall st st', run apartment st es st' -> orderedDraft st -> orderedDraft st'.
Proof.
  induction es as [| e es IH]; intros st st' Hrun Hord; inversion Hrun; subst.
  - exact Hord.
  - eapply IH; [eassumption |]. eapply step_keeps_order; eassumption.
Qed.

Lemma run_keeps_free (apartment : Apartment) (es : list Event) :
  forall st st',
    run apartment st es st' -> forallb (fun e => negb (isLoaded e)) es = true ->
    freeDraft st -> freeDraft st' /\ bookedDates st' = bookedDates st.
Proof.
  induction es as [| e es IH]; intros st st' Hrun Hquiet Hfree; inversion Hrun; subst.
  - split; [exact Hfree | reflexivity].
  - cbn [forallb] in Hquiet. apply andb_true_iff in Hquiet. destruct Hquiet as [He Hes].
    apply negb_true_iff in He.
    match goal with
    | Hs : step _ _ _ ?mid |- _ =>
        destruct (step_keeps_free _ _ _ _ Hs He Hfree) as [Hmid Hdates];
        destruct (IH mid st') as [Hend Hdates']; try assumption
    end.
    split; [exact Hend | congruence].
Qed.

(** X5.  As long as no new load arrives, the events of a session keep the
    booked dates as they are and a draft that spans no booked date in that
    state: a range accepted by [handleDateChange] stays free of booked
    dates through typing and submitting. *)
Theorem session_keeps_range_free
    (apartment : Apartment) (es : list Event) (st st' : FormState) :
  freeDraft st ->
  forallb (fun e => negb (isLoaded e)) es = true ->
  run apartment st es st' ->
  freeDraft st' /\ bookedDates st' = bookedDates st.
Proof.
  intros Hfree Hquiet Hrun. revert st st' Hfree Hrun.
  induction es as [| e es IH]; intros st st' Hfree Hrun; inversion Hrun; subst.
  - split; [exact Hfree | reflexivity].
  - cbn [forallb] in Hquiet. apply andb_true_iff in Hquiet. destruct Hquiet as [He Hes].
    apply negb_true_iff in He.
    match goal with
    | Hs : step _ _ _ ?mid |- _ =>
        destruct (step_keeps_free _ _ _ _ Hs He Hfree) as [Hmid Hdates];
        destruct (IH Hes mid st') as [Hend Hdates']; try assumption
    end.
    split; [exact Hend | congruence].
Qed.

Lemma session_keeps_range_free_witness :
  let apartment := {| id := "a1"; name := "Gintaras"; price_per_night := 100 |} in
  let st := setBookedDates [parseISO_day 19876] (initialState apartment) in
  let es := [ Picked (parseISO_day 19870) checkInField (Some (parseISO_day 19879));
              NameTyped "Ona";
              Picked (parseISO_day 19870) checkOutField (Some (parseISO_day 19881)) ] in
  freeDraft st /\
  exists st', run apartment st es st' /\ freeDraft st' /\
              checkOut (bookingDetails st') = Some (parseISO_day 19881).
Proof.
  intros apartment st es.
  assert (freeDraft st) as Hfree by (intros ci co Hci; discriminate Hci).
  split; [exact Hfree |].
  assert (exists st', run apartment st es st' /\
                      checkOut (bookingDetails st') = Some (parseISO_day 19881))
    as (st' & Hrun & Hco).
  { eexists. split.
    - eapply run_cons; [apply step_picked; [| vm_compute]; reflexivity |].
      eapply run_cons; [apply step_name |].
      eapply run_cons; [apply step_picked; [| vm_compute]; reflexivity |].
      apply run_nil.
    - reflexivity. }
  exists st'. split; [exact Hrun |]. split; [| exact Hco].
  exact (proj1 (session_keeps_range_free apartment es st st' Hfree eq_refl Hrun)).
Defined.

(** X6.  In a session of BookingForm.tsx whose load answered before any
    date was chosen, submission is refused only for a missing field: once
    both dates and a non-empty guest name and e-mail are in the draft,
    submitting posts to the payment endpoint. *)
Theorem session_submission_needs_only_the_fields
    (apartment : Apartment) (resp : PostgrestResponse (list BookingRow))
    (es : list Event) (st : FormState) (fetch : CheckoutParams -> FetchOutcome)
    (ci co : Date) (email guest : string) :
  run apartment (fetchBookedDates resp (initialState apartment)) es st ->
  forallb (fun e => negb (isLoaded e)) es = true ->
  checkIn (bookingDetails st) = Some ci ->
  checkOut (bookingDetails st) = Some co ->
  guestEmail (bookingDetails st) = Some email -> email <> EmptyString ->
  guestName (bookingDetails st) = Some guest -> guest <> EmptyString ->
  requests (handleSubmit apartment st fetch)
  = [checkoutParams apartment st ci co email guest].
Proof.
  intros Hrun Hquiet Hci Hco He Hne Hg Hng.
  set (st0 := fetchBookedDates resp (initialState apartment)) in *.
  assert (bookingDetails st0 = bookingDetails (initialState apartment)) as Hbd0
    by apply fetchBookedDates_bookingDetails.
  assert (orderedDraft st0) as Hord0
    by (intros a b Ha; rewrite Hbd0 in Ha; discriminate Ha).
  assert (freeDraft st0) as Hfree0
    by (intros a b Ha; rewrite Hbd0 in Ha; discriminate Ha).
  pose proof (run_keeps_order _ _ _ _ Hrun Hord0) as Hord.
  destruct (run_keeps_free _ _ _ _ Hrun Hquiet Hfree0) as [Hfree _].
  assert (submittable st) as Hok.
  { exists ci, co, email, guest. repeat split; try assumption.
    - now apply Hord.
    - now apply Hfree. }
  destruct (handleSubmit_checks_cases st)
    as [(_ & ci' & co' & e' & g' & Hchecks & Hci' & Hco' & He' & Hg') | (Hbad & _)];
    [| contradiction].
  assert (ci' = ci) by congruence. assert (co' = co) by congruence.
  assert (e' = email) by congruence. assert (g' = guest) by congruence. subst.
  unfold handleSubmit, handleSubmit_try. rewrite Hchecks.
  destruct (fetch _) as [m | ok [url | m]]; [reflexivity | destruct ok; reflexivity ..].
Qed.

Lemma session_submission_needs_only_the_fields_witness :
  let apartment := {| id := "a1"; name := "Gintaras"; price_per_night := 100 |} in
  let resp := loaded [ {| check_in := parseISO_day 19875; check_out := parseISO_day 19877 |} ] in
  let es := [ Picked (parseISO_day 19870) checkInField (Some (parseISO_day 19879));
              NameTyped "Ona";
              Picked (parseISO_day 19870) checkOutField (Some (parseISO_day 19881));
              EmailTyped "ona@example.org" ] in
  let fetch := fun _ : CheckoutParams => FetchResponded true (Normal "https://pay/1") in
  exists st,
    run apartment (fetchBookedDates resp (initialState apartment)) es st /\
    map unit_amount (requests (handleSubmit apartment st fetch)) = [20000%Z].
Proof.
  intros apartment resp es fetch.
  assert (exists st, run apartment (fetchBookedDates resp (initialState apartment)) es st /\
                     checkIn (bookingDetails st) = Some (parseISO_day 19879) /\
                     checkOut (bookingDetails st) = Some (parseISO_day 19881) /\
                     guestEmail (bookingDetails st) = Some "ona@example.org" /\
                     guestName (bookingDetails st) = Some "Ona" /\
                     appliedCoupon st = None)
    as (st & Hrun & Hci & Hco & He & Hg & Hcoupon).
  { eexists. split.
    - eapply run_cons; [apply step_picked; [| vm_compute]; reflexivity |].
      eapply run_cons; [apply step_name |].
      eapply run_cons; [apply step_picked; [| vm_compute]; reflexivity |].
      eapply run_cons; [apply step_email |].
      apply run_nil.
    - repeat split. }
  exists st. split; [exact Hrun |].
  rewrite (session_submission_needs_only_the_fields apartment resp es st fetch
             _ _ _ _ Hrun eq_refl Hci Hco He ltac:(discriminate) Hg ltac:(discriminate)).
  cbn [map unit_amount checkoutParams]. unfold calculateTotalPrice.
  rewrite Hcoupon. vm_compute. reflexivity.
Defined.

(** X7.  In the coupon-aware form the check-out picker starts at the
    check-in itself, so the very date of the check-in, when it is not
    booked, is offered as check-out and accepted by [handleDateChange]; the
    draft then holds the same date twice, and submitting it posts nothing:
    with the guest fields filled the message is the one for a check-out
    that is not after the check-in. *)
Theorem couponForm_accepts_checkOut_on_checkIn
    (now : Date) (st : FormState) (date : Date) :
  checkIn (bookingDetails st) = Some date ->
  isDateBooked st date = false ->
  couponForm_pickable now st checkOutField date = true /\
  exists st',
    handleDateChange st checkOutField (Some date) = Normal st' /\
    checkIn (bookingDetails st') = Some date /\
    checkOut (bookingDetails st') = Some date /\
    forall (apartment : Apartment) (fetch : CheckoutParams -> FetchOutcome),
      requests (handleSubmit apartment st' fetch) = [] /\
      (truthy (guestEmail (bookingDetails st)) = true ->
       truthy (guestName (bookingDetails st)) = true ->
       formError (afterSubmit (handleSubmit apartment st' fetch))
       = Some "Check-out date must be after check-in date").
Proof.
  intros Hci Hfree. split.
  - unfold couponForm_pickable, couponForm_checkOutMinDate, offered. rewrite Hci.
    apply andb_true_iff. split; [apply Z.leb_refl |].
    apply negb_true_iff. exact Hfree.
  - assert (someDayBooked st date date = Normal false) as Hrange.
    { apply someDayBooked_false; [lia |].
      intros (d & Hd & Hb). rewrite (isDateBooked_same_day st d date) in Hb by lia.
      congruence. }
    eexists. split.
    + unfold handleDateChange, handleDateChange_endpoint. rewrite Hfree.
      unfold completedRange. cbn [withCheckOut checkIn checkOut]. rewrite Hci, Hrange.
      reflexivity.
    + cbn [setError setBookingDetails bookingDetails withCheckOut checkIn checkOut].
      split; [exact Hci |]. split; [reflexivity |].
      intros apartment fetch.
      unfold handleSubmit, handleSubmit_try, handleSubmit_checks, handleSubmit_guards.
      cbn [setError setBookingDetails bookingDetails withCheckOut checkIn checkOut
           guestEmail guestName]. rewrite Hci.
      destruct (truthy (guestEmail (bookingDetails st))) eqn:He;
        [| split; [reflexivity | discriminate]].
      destruct (truthy (guestName (bookingDetails st))) eqn:Hg;
        [| split; [reflexivity | discriminate]].
      cbn [negb orb].
      destruct (guestEmail (bookingDetails st)) as [e |]; [| discriminate].
      destruct (guestName (bookingDetails st)) as [g |]; [| discriminate].
      rewrite Z.leb_refl. split; [reflexivity | intros _ _; reflexivity].
Qed.

Lemma couponForm_accepts_checkOut_on_checkIn_witness :
  let st := setBookingDetails
              {| apartmentId := "a1"; checkIn := Some (parseISO_day 19879 + 43200000);
                 checkOut := None; guestName := Some "Ona";
                 guestEmail := Some "ona@example.org" |}
              (initialState {| id := "a1"; name := "Gintaras"; price_per_night := 100 |}) in
  couponForm_pickable (parseISO_day 19870) st checkOutField (parseISO_day 19879 + 43200000)
  = true.
Proof.
  intro st.
  exact (proj1 (couponForm_accepts_checkOut_on_checkIn (parseISO_day 19870) st
                  (parseISO_day 19879 + 43200000) eq_refl eq_refl)).
Defined.


(** ** The payment request and its answer *)

Lemma handleSubmit_checks_submittable (st : FormState) :
  submittable st ->
  exists ci co email guest,
    handleSubmit_checks st = Normal (ci, co, email, guest) /\
    checkIn (bookingDetails st) = Some ci /\ checkOut (bookingDetails st) = Some co /\
    guestEmail (bookingDetails st) = Some email /\
    guestName (bookingDetails st) = Some guest /\
    (ci < co)%Z /\ email <> EmptyString /\ guest <> EmptyString.
Proof.
  intro Hok.
  destruct (handleSubmit_checks_cases st)
    as [(_ & ci & co & e & g & Hrun & Hci & Hco & He & Hg) | (Hbad & _)]; [| contradiction].
  destruct Hok as (ci' & co' & e' & g' & Hci' & Hco' & He' & Hne & Hg' & Hng & Hlt & _).
  exists ci, co, e, g. repeat split; try assumption; congruence.
Qed.

(** X8.  For a draft that passes the checks, what the form shows follows
    the answer of the payment endpoint: a rejected request leaves its
    message, a response that is not ok leaves "Failed to create checkout
    session", a body that cannot be read leaves the parser's message, and
    in none of these cases does the page move; an ok response with a
    session URL moves the page there and leaves no message.  Exactly one
    request is made. *)
Theorem handleSubmit_follows_the_answer
    (apartment : Apartment) (st : FormState) (fetch : CheckoutParams -> FetchOutcome) :
  submittable st ->
  let r := handleSubmit apartment st fetch in
  exists params,
    requests r = [params] /\
    match fetch params with
    | FetchRejected message =>
        formError (afterSubmit r) = Some message /\ location_href r = None
    | FetchResponded false _ =>
        formError (afterSubmit r) = Some "Failed to create checkout session" /\
        location_href r = None
    | FetchResponded true (Thrown message) =>
        formError (afterSubmit r) = Some message /\ location_href r = None
    | FetchResponded true (Normal url) =>
        formError (afterSubmit r) = None /\ location_href r = Some url
    end.
Proof.
  intros Hok r.
  destruct (handleSubmit_checks_submittable st Hok) as (ci & co & e & g & Hrun & _).
  exists (checkoutParams apartment st ci co e g).
  unfold r, handleSubmit, handleSubmit_try. rewrite Hrun.
  destruct (fetch _) as [m | [|] [url | m]]; repeat split.
Qed.

Lemma handleSubmit_follows_the_answer_witness :
  let apartment := {| id := "a1"; name := "Gintaras"; price_per_night := 100 |} in
  let st := setBookingDetails
              {| apartmentId := "a1"; checkIn := Some (parseISO_day 19879);
                 checkOut := Some (parseISO_day 19881);
                 guestName := Some "Ona"; guestEmail := Some "ona@example.org" |}
              (initialState apartment) in
  let fetch := fun _ : CheckoutParams => FetchResponded false (Thrown "unused") in
  submittable st /\
  formError (afterSubmit (handleSubmit apartment st fetch))
  = Some "Failed to create checkout session".
Proof.
  intros apartment st fetch.
  assert (submittable st) as Hok.
  { exists (parseISO_day 19879), (parseISO_day 19881), "ona@example.org", "Ona".
    repeat split; try discriminate. intros (d & _ & Hb). discriminate Hb. }
  split; [exact Hok |].
  destruct (handleSubmit_follows_the_answer apartment st fetch Hok) as (params & _ & H).
  exact (proj1 H).
Defined.

(** X9.  Whatever the draft and whatever the endpoint answers, submitting
    ends with the loading flag down, makes at most one request, and leaves
    the booked dates, the typed coupon code and the applied coupon as they
    were. *)
Theorem handleSubmit_frame
    (apartment : Apartment) (st : FormState) (fetch : CheckoutParams -> FetchOutcome) :
  let r := handleSubmit apartment st fetch in
  isLoading (afterSubmit r) = false /\
  (List.length (requests r) <= 1)%nat /\
  bookedDates (afterSubmit r) = bookedDates st /\
  couponCode (afterSubmit r) = couponCode st /\
  appliedCoupon (afterSubmit r) = appliedCoupon st /\
  isValidatingCoupon (afterSubmit r) = isValidatingCoupon st.
Proof.
  intro r. unfold r, handleSubmit, handleSubmit_try.
  destruct (handleSubmit_checks st) as [[[[ci co] e] g] | m].
  - destruct (fetch _) as [m | [|] [url | m]]; cbn; repeat split; lia.
  - cbn. repeat split; lia.
Qed.

(** X10.  A request that is made carries the draft as it stands: its two
    dates, in order, the non-empty guest e-mail (as customer and in the
    metadata) and name, the apartment's name as product, and the coupon's
    code and percentage exactly when a coupon is applied. *)
Theorem posted_request_carries_the_draft
    (apartment : Apartment) (st : FormState) (fetch : CheckoutParams -> FetchOutcome)
    (params : CheckoutParams) :
  In params (requests (handleSubmit apartment st fetch)) ->
  checkIn (bookingDetails st) = Some (metadata_checkIn params) /\
  checkOut (bookingDetails st) = Some (metadata_checkOut params) /\
  (metadata_checkIn params < metadata_checkOut params)%Z /\
  guestEmail (bookingDetails st) = Some (customer_email params) /\
  metadata_email params = customer_email params /\
  customer_email params <> EmptyString /\
  guestName (bookingDetails st) = Some (metadata_guestName params) /\
  metadata_guestName params <> EmptyString /\
  product_name params = name apartment /\
  metadata_apartmentId params = id apartment /\
  metadata_coupon params
  = option_map (fun coupon => (code coupon, discount_percent coupon)) (appliedCoupon st).
Proof.
  intro Hin.
  destruct (handleSubmit_checks_cases st) as [(Hok & _) | (_ & m & Hthrown)].
  - destruct (handleSubmit_checks_submittable st Hok)
      as (ci & co & e & g & Hrun & Hci & Hco & He & Hg & Hlt & Hne & Hng).
    assert (params = checkoutParams apartment st ci co e g) as ->.
    { revert Hin. unfold handleSubmit, handleSubmit_try. rewrite Hrun.
      destruct (fetch _) as [m | [|] [url | m]]; cbn; intuition. }
    cbn. repeat split; assumption.
  - exfalso. revert Hin. unfold handleSubmit, handleSubmit_try. rewrite Hthrown.
    cbn. tauto.
Qed.

Lemma posted_request_carries_the_draft_witness :
  let apartment := {| id := "a1"; name := "Gintaras"; price_per_night := 100 |} in
  let st := setBookingDetails
              {| apartmentId := "a1"; checkIn := Some (parseISO_day 19879);
                 checkOut := Some (parseISO_day 19881);
                 guestName := Some "Ona"; guestEmail := Some "ona@example.org" |}
              (initialState apartment) in
  let fetch := fun _ : CheckoutParams => FetchRejected "offline" in
  let params := checkoutParams apartment st (parseISO_day 19879) (parseISO_day 19881)
                  "ona@example.org" "Ona" in
  In params (requests (handleSubmit apartment st fetch)) /\
  metadata_coupon params = None.
Proof.
  intros apartment st fetch params.
  assert (In params (requests (handleSubmit apartment st fetch))) as Hin by (left; reflexivity).
  split; [exact Hin |].
  destruct (posted_request_carries_the_draft apartment st fetch params Hin)
    as (_ & _ & _ & _ & _ & _ & _ & _ & _ & _ & H).
  exact H.
Defined.


(** ** Nights and price *)

Lemma differenceInDays_bounds (ci co : Date) :
  (ci <= co)%Z ->
  (dayNumber co - dayNumber ci - 1 <= differenceInDays co ci <= dayNumber co - dayNumber ci)%Z.
Proof.
  intro Hle. unfold differenceInDays. rewrite Z.quot_div_nonneg by (reflexivity || lia).
  pose proof msPerDay_pos as Hpos.
  pose proof (startOfDay_le ci) as Hi. pose proof (startOfDay_le co) as Ho.
  pose proof (lt_next_midnight ci) as Hi'. pose proof (lt_next_midnight co) as Ho'.
  unfold startOfDay, parseISO_day in *.
  split.
  - apply Z.div_le_lower_bound; [exact Hpos | nia].
  - apply Z.lt_succ_r. apply Z.div_lt_upper_bound; [exact Hpos | nia].
Qed.

Lemma priceInCents_zero (total : Q) : (total == 0)%Q -> priceInCents total = 0%Z.
Proof.
  intro H. unfold priceInCents, Math_round.
  assert (total * 100 + (1 # 2) == 1 # 2)%Q as -> by (rewrite H; ring).
  reflexivity.
Qed.

Lemma calculateTotalPrice_zero_nights (apartment : Apartment) (st : FormState) :
  (calculateTotalPrice apartment st 0 == 0)%Q.
Proof.
  unfold calculateTotalPrice. destruct (appliedCoupon st); ring.
Qed.

(** X11.  The nights counted between a check-in and a later check-out are
    the calendar days between them or one fewer (when the check-out falls
    earlier in its day than the check-in in its own), never negative, and
    exactly the calendar days when both are midnights. *)
Theorem numberOfNights_counts_full_days (st : FormState) (ci co : Date) :
  checkIn (bookingDetails st) = Some ci ->
  checkOut (bookingDetails st) = Some co ->
  (ci <= co)%Z ->
  (0 <= numberOfNights st)%Z /\
  (dayNumber co - dayNumber ci - 1 <= numberOfNights st <= dayNumber co - dayNumber ci)%Z /\
  (startOfDay ci = ci -> startOfDay co = co ->
   numberOfNights st = (dayNumber co - dayNumber ci)%Z).
Proof.
  intros Hci Hco Hle. unfold numberOfNights. rewrite Hci, Hco.
  pose proof (differenceInDays_bounds ci co Hle) as Hb.
  split; [| split; [exact Hb |]].
  - unfold differenceInDays. apply Z.quot_pos; [lia | apply msPerDay_pos].
  - intros Hmi Hmo. unfold differenceInDays, startOfDay in *.
    rewrite <- Hmi, <- Hmo at 1.
    rewrite <- Z.mul_sub_distr_r. apply Z.quot_mul. discriminate.
Qed.

Lemma numberOfNights_counts_full_days_witness :
  let st := setBookingDetails
              {| apartmentId := "a1"; checkIn := Some (parseISO_day 19879 + 54000000);
                 checkOut := Some (parseISO_day 19881 + 39600000);
                 guestName := None; guestEmail := None |}
              (initialState {| id := "a1"; name := "Gintaras"; price_per_night := 100 |}) in
  numberOfNights st = 1%Z /\ (0 <= numberOfNights st)%Z.
Proof.
  intro st. split; [reflexivity |].
  exact (proj1 (numberOfNights_counts_full_days st (parseISO_day 19879 + 54000000)
                  (parseISO_day 19881 + 39600000) eq_refl eq_refl ltac:(vm_compute; discriminate))).
Defined.

Lemma inject_Z_nonneg (n : Z) : (0 <= n)%Z -> (0 <= inject_Z n)%Q.
Proof. intro H. change 0%Q with (inject_Z 0). now rewrite <- Zle_Qle. Qed.

(** X13.  For a non-negative number of nights and rate and a coupon of 0 to
    100 percent (or none), the total lies between zero and the full price
    of the nights. *)
Theorem total_between_zero_and_full_price
    (apartment : Apartment) (st : FormState) (n : Z) :
  (0 <= n)%Z ->
  (0 <= price_per_night apartment)%Q ->
  (forall coupon, appliedCoupon st = Some coupon ->
                  (0 <= discount_percent coupon)%Q /\ (discount_percent coupon <= 100)%Q) ->
  (0 <= calculateTotalPrice apartment st n)%Q /\
  (calculateTotalPrice apartment st n <= inject_Z n * price_per_night apartment)%Q.
Proof.
  intros Hn Hrate Hpct. apply inject_Z_nonneg in Hn.
  pose proof (Qmult_le_0_compat _ _ Hn Hrate) as Hfull.
  unfold calculateTotalPrice.
  destruct (appliedCoupon st) as [coupon |]; [| split; [exact Hfull | apply Qle_refl]].
  destruct (Hpct coupon eq_refl) as [Hlo Hhi].
  set (full := (inject_Z n * price_per_night apartment)%Q) in *.
  set (p := discount_percent coupon) in *.
  assert (full * (p / 100) == full * p * (1 # 100))%Q as -> by field.
  split; nra.
Qed.

Lemma total_between_zero_and_full_price_witness :
  let apartment := {| id := "a1"; name := "Gintaras"; price_per_night := 100 |} in
  let coupon := {| code := "SUMMER10"; discount_percent := 10; is_active := true;
                   expires_at := parseISO_day 20000 |} in
  let st := setAppliedCoupon (Some coupon) (initialState apartment) in
  (0 <= calculateTotalPrice apartment st 3)%Q /\
  (calculateTotalPrice apartment st 3 <= inject_Z 3 * price_per_night apartment)%Q.
Proof.
  intros apartment coupon st.
  apply (total_between_zero_and_full_price apartment st 3).
  - lia.
  - vm_compute. discriminate.
  - intros c Hc. injection Hc as <-. split; vm_compute; discriminate.
Defined.

(** X14.  With a non-negative rate and a coupon of at most 100 percent (or
    none), more nights never cost less. *)
Theorem total_grows_with_nights
    (apartment : Apartment) (st : FormState) (n m : Z) :
  (n <= m)%Z ->
  (0 <= price_per_night apartment)%Q ->
  (forall coupon, appliedCoupon st = Some coupon -> (discount_percent coupon <= 100)%Q) ->
  (calculateTotalPrice apartment st n <= calculateTotalPrice apartment st m)%Q.
Proof.
  intros Hnm Hrate Hpct. rewrite Zle_Qle in Hnm.
  unfold calculateTotalPrice.
  set (a := inject_Z n) in *. set (b := inject_Z m) in *.
  set (r := price_per_night apartment) in *.
  destruct (appliedCoupon st) as [coupon |].
  - pose proof (Hpct coupon eq_refl) as Hhi. set (p := discount_percent coupon) in *.
    assert (a * r - a * r * (p / 100) == a * (r * (1 - p * (1 # 100))))%Q as ->
      by field.
    assert (b * r - b * r * (p / 100) == b * (r * (1 - p * (1 # 100))))%Q as ->
      by field.
    assert (0 <= r * (1 - p * (1 # 100)))%Q by nra.
    nra.
  - nra.
Qed.

Lemma total_grows_with_nights_witness :
  let apartment := {| id := "a1"; name := "Gintaras"; price_per_night := 100 |} in
  let st := initialState apartment in
  (calculateTotalPrice apartment st 2 <= calculateTotalPrice apartment st 5)%Q.
Proof.
  intros apartment st.
  apply (total_grows_with_nights apartment st 2 5).
  - lia.
  - vm_compute. discriminate.
  - intros c Hc. discriminate Hc.
Defined.

(** X15.  For a non-negative number of nights and rate, a coupon with a
    larger percentage never gives a larger total. *)
Theorem total_shrinks_with_discount
    (apartment : Apartment) (st : FormState) (n : Z) (smaller larger : Coupon) :
  (0 <= n)%Z ->
  (0 <= price_per_night apartment)%Q ->
  (discount_percent smaller <= discount_percent larger)%Q ->
  (calculateTotalPrice apartment (setAppliedCoupon (Some larger) st) n
   <= calculateTotalPrice apartment (setAppliedCoupon (Some smaller) st) n)%Q.
Proof.
  intros Hn Hrate Hpct. apply inject_Z_nonneg in Hn.
  pose proof (Qmult_le_0_compat _ _ Hn Hrate) as Hfull.
  unfold calculateTotalPrice. cbn [setAppliedCoupon appliedCoupon].
  set (full := (inject_Z n * price_per_night apartment)%Q) in *.
  set (p := discount_percent smaller) in *. set (q := discount_percent larger) in *.
  assert (full * (p / 100) == full * p * (1 # 100))%Q as -> by field.
  assert (full * (q / 100) == full * q * (1 # 100))%Q as -> by field.
  nra.
Qed.

Lemma total_shrinks_with_discount_witness :
  let apartment := {| id := "a1"; name := "Gintaras"; price_per_night := 100 |} in
  let c10 := {| code := "SUMMER10"; discount_percent := 10; is_active := true;
                expires_at := parseISO_day 20000 |} in
  let c25 := {| code := "SUMMER25"; discount_percent := 25; is_active := true;
                expires_at := parseISO_day 20000 |} in
  (calculateTotalPrice apartment (setAppliedCoupon (Some c25) (initialState apartment)) 3
   <= calculateTotalPrice apartment (setAppliedCoupon (Some c10) (initialState apartment)) 3)%Q.
Proof.
  intros apartment c10 c25.
  apply (total_shrinks_with_discount apartment (initialState apartment) 3 c10 c25).
  - lia.
  - vm_compute. discriminate.
  - vm_compute. discriminate.
Defined.

(** X16.  While a date of the draft is missing the form shows zero nights
    and a total of zero, whatever the rate and the coupon, and that total
    in cents is zero. *)
Theorem incomplete_dates_show_zero (apartment : Apartment) (st : FormState) :
  checkIn (bookingDetails st) = None \/ checkOut (bookingDetails st) = None ->
  numberOfNights st = 0%Z /\
  (totalPrice apartment st == 0)%Q /\
  priceInCents (totalPrice apartment st) = 0%Z.
Proof.
  intro Hmissing.
  assert (numberOfNights st = 0%Z) as Hzero.
  { unfold numberOfNights. destruct Hmissing as [-> | ->]; [reflexivity |].
    destruct (checkIn (bookingDetails st)); reflexivity. }
  assert (totalPrice apartment st == 0)%Q as Htotal
    by (unfold totalPrice; rewrite Hzero; apply calculateTotalPrice_zero_nights).
  split; [exact Hzero |]. split; [exact Htotal | now apply priceInCents_zero].
Qed.

Lemma incomplete_dates_show_zero_witness :
  let apartment := {| id := "a1"; name := "Gintaras"; price_per_night := 100 |} in
  numberOfNights (initialState apartment) = 0%Z /\
  priceInCents (totalPrice apartment (initialState apartment)) = 0%Z.
Proof.
  intro apartment.
  destruct (incomplete_dates_show_zero apartment (initialState apartment) (or_introl eq_refl))
    as (H1 & _ & H2).
  split; assumption.
Defined.

(** X18.  The percentage of a coupon is not bounded by the form: with a
    positive number of nights and rate, a coupon above 100 percent makes
    the total negative. *)
Theorem coupon_above_100_makes_total_negative
    (apartment : Apartment) (st : FormState) (n : Z) (coupon : Coupon) :
  (0 < n)%Z ->
  (0 < price_per_night apartment)%Q ->
  appliedCoupon st = Some coupon ->
  (100 < discount_percent coupon)%Q ->
  (calculateTotalPrice apartment st n < 0)%Q.
Proof.
  intros Hn Hrate Hc Hpct. rewrite Zlt_Qlt in Hn. change (inject_Z 0) with 0%Q in Hn.
  unfold calculateTotalPrice. rewrite Hc.
  set (a := inject_Z n) in *. set (r := price_per_night apartment) in *.
  set (p := discount_percent coupon) in *.
  assert (a * r - a * r * (p / 100) == a * r * ((100 - p) * (1 # 100)))%Q as ->
    by field.
  assert (0 < a * r)%Q by nra.
  nra.
Qed.

Lemma coupon_above_100_makes_total_negative_witness :
  let apartment := {| id := "a1"; name := "Gintaras"; price_per_night := 100 |} in
  let coupon := {| code := "OOPS150"; discount_percent := 150; is_active := true;
                   expires_at := parseISO_day 20000 |} in
  (calculateTotalPrice apartment (setAppliedCoupon (Some coupon) (initialState apartment)) 2
   < 0)%Q.
Proof.
  intros apartment coupon.
  apply (coupon_above_100_makes_total_negative apartment _ 2 coupon).
  - lia.
  - vm_compute. reflexivity.
  - reflexivity.
  - vm_compute. reflexivity.
Defined.

(** X19.  With no coupon and a rate in whole cents, the amount put in the
    request is exactly the nights times the rate in cents: rounding loses
    nothing. *)
Theorem whole_cents_are_posted_exactly
    (apartment : Apartment) (st : FormState) (n cents : Z) :
  appliedCoupon st = None ->
  (price_per_night apartment == inject_Z cents / 100)%Q ->
  priceInCents (calculateTotalPrice apartment st n) = (n * cents)%Z.
Proof.
  intros Hnone Hrate. unfold priceInCents, Math_round, calculateTotalPrice.
  rewrite Hnone.
  assert (inject_Z n * price_per_night apartment * 100 + (1 # 2)
          == inject_Z (n * cents) + (1 # 2))%Q as ->.
  { rewrite Hrate, inject_Z_mult. field. }
  unfold Qfloor, Qplus, inject_Z. cbn [Qnum Qden].
  change (Z.pos (1 * 2)) with 2%Z. generalize (n * cents)%Z. intro k.
  symmetry. apply Z.div_unique with (r := 1%Z); lia.
Qed.

Lemma whole_cents_are_posted_exactly_witness :
  let apartment := {| id := "a1"; name := "Gintaras"; price_per_night := 8995 # 100 |} in
  priceInCents (calculateTotalPrice apartment (initialState apartment) 3) = 26985%Z.
Proof.
  intro apartment.
  apply (whole_cents_are_posted_exactly apartment (initialState apartment) 3 8995).
  - reflexivity.
  - vm_compute. reflexivity.
Defined.


(** ** Applying a coupon *)

Lemma single_two_or_more {A : Type} (rows : list A) :
  (2 <= List.length rows)%nat -> data (single rows) = None.
Proof.
  destruct rows as [| a [| b rest]]; cbn; intro H; [lia | lia | reflexivity].
Qed.

(** X20.  When exactly one row of the table has the code, is active and
    expires after the moment of asking, that row becomes the applied
    coupon, the error message is cleared and [validateCoupon] answers
    [true]; the applied coupon then has the code asked for, is active and
    is not expired. *)
Theorem single_match_is_applied
    (rows : list Coupon) (now : Date) (c : string) (st : FormState) (row : Coupon) :
  filter (couponMatches c now) rows = [row] ->
  validateCoupon (StoreUp rows) now c st
  = (true,
     setIsValidatingCoupon false
       (setAppliedCoupon (Some row) (setError None (setIsValidatingCoupon true st)))) /\
  In row rows /\ code row = c /\ is_active row = true /\ (now < expires_at row)%Z.
Proof.
  intro Hone. split.
  - unfold validateCoupon. cbn [queryCoupon]. rewrite Hone. reflexivity.
  - assert (In row (filter (couponMatches c now) rows)) as Hin by (rewrite Hone; now left).
    apply filter_In in Hin. destruct Hin as [Hin Hm]. split; [exact Hin |].
    unfold couponMatches in Hm. apply andb_true_iff in Hm. destruct Hm as [Hm Hexp].
    apply andb_true_iff in Hm. destruct Hm as [Hcode Hact].
    apply String.eqb_eq in Hcode. apply Bool.eqb_prop in Hact. apply Z.ltb_lt in Hexp.
    repeat split; assumption.
Qed.

Lemma single_match_is_applied_witness :
  let summer := {| code := "SUMMER10"; discount_percent := 10; is_active := true;
                   expires_at := parseISO_day 20000 |} in
  let old := {| code := "SUMMER10"; discount_percent := 50; is_active := false;
                expires_at := parseISO_day 20000 |} in
  let st := initialState {| id := "a1"; name := "Gintaras"; price_per_night := 100 |} in
  appliedCoupon (snd (validateCoupon (StoreUp [old; summer]) (parseISO_day 19875)
                        "SUMMER10" st))
  = Some summer.
Proof.
  intros summer old st.
  rewrite (proj1 (single_match_is_applied [old; summer] (parseISO_day 19875) "SUMMER10"
                    st summer eq_refl)).
  reflexivity.
Defined.

(** X21.  When two or more rows match the code, none is applied: the
    attempt ends like a failed lookup, with the applied coupon cleared. *)
Theorem several_matches_are_refused
    (rows : list Coupon) (now : Date) (c : string) (st : FormState) :
  (2 <= List.length (filter (couponMatches c now) rows))%nat ->
  let r := validateCoupon (StoreUp rows) now c st in
  fst r = false /\
  appliedCoupon (snd r) = None /\
  formError (snd r) = Some "Failed to validate coupon".
Proof.
  intros Hmany r. unfold r.
  rewrite validateCoupon_failure; [repeat split |].
  cbn [queryCoupon]. now apply single_two_or_more.
Qed.

Lemma several_matches_are_refused_witness :
  let a := {| code := "TWICE"; discount_percent := 10; is_active := true;
              expires_at := parseISO_day 20000 |} in
  let b := {| code := "TWICE"; discount_percent := 20; is_active := true;
              expires_at := parseISO_day 20001 |} in
  let st := initialState {| id := "a1"; name := "Gintaras"; price_per_night := 100 |} in
  appliedCoupon (snd (validateCoupon (StoreUp [a; b]) (parseISO_day 19875) "TWICE" st)) = None.
Proof.
  intros a b st.
  refine (proj1 (proj2 (several_matches_are_refused [a; b] (parseISO_day 19875) "TWICE" st _))).
  vm_compute. lia.
Defined.

Lemma trimStart_white (s : string) :
  (forall c, In c (list_ascii_of_string s) -> isWhite c = true) -> trimStart s = EmptyString.
Proof.
  induction s as [| c s IH]; intro H; cbn [trimStart]; [reflexivity |].
  rewrite (H c) by (now left). apply IH. intros c' Hc'. apply H. now right.
Qed.

(** X22.  A typed code made of blanks only (spaces, tabs, line breaks) is
    refused without asking the store: the message asks for a code and
    nothing else of the state changes. *)
Theorem blank_code_is_refused_unasked
    (store : CouponStore) (now : Date) (st : FormState) :
  (forall c, In c (list_ascii_of_string (couponCode st)) -> isWhite c = true) ->
  handleApplyCoupon store now st
  = {| afterAttempt := setError (Some "Please enter a coupon code") st; queried := [] |}.
Proof.
  intro Hblank. apply handleApplyCoupon_empty.
  unfold trim. now rewrite trimStart_white.
Qed.

Lemma blank_code_is_refused_unasked_witness :
  let st := setCouponCode "   "
              (initialState {| id := "a1"; name := "Gintaras"; price_per_night := 100 |}) in
  queried (handleApplyCoupon (StoreDown "offline") (parseISO_day 19875) st) = [].
Proof.
  intro st.
  rewrite (blank_code_is_refused_unasked (StoreDown "offline") (parseISO_day 19875) st).
  - reflexivity.
  - intros c Hc. cbn in Hc. intuition (subst; reflexivity).
Defined.

(** X23.  Applying a coupon asks the store at most once, never for an empty
    code and only for the typed code without its surrounding blanks; it
    leaves the draft, the booked dates, the typed code and the loading flag
    alone, and when it has asked it ends with the validating flag down and
    with either a coupon applied and no message or no coupon and a
    message. *)
Theorem handleApplyCoupon_frame (store : CouponStore) (now : Date) (st : FormState) :
  let r := handleApplyCoupon store now st in
  (queried r = [] \/ queried r = [trim (couponCode st)]) /\
  ~ In EmptyString (queried r) /\
  bookingDetails (afterAttempt r) = bookingDetails st /\
  bookedDates (afterAttempt r) = bookedDates st /\
  couponCode (afterAttempt r) = couponCode st /\
  isLoading (afterAttempt r) = isLoading st /\
  (queried r <> [] ->
   isValidatingCoupon (afterAttempt r) = false /\
   ((exists coupon, appliedCoupon (afterAttempt r) = Some coupon /\
                    formError (afterAttempt r) = None) \/
    (appliedCoupon (afterAttempt r) = None /\
     exists message, formError (afterAttempt r) = Some message))).
Proof.
  intro r. unfold r.
  destruct (string_dec (trim (couponCode st)) EmptyString) as [He | Hne].
  - rewrite (handleApplyCoupon_empty store now st He). cbn.
    repeat split; tauto.
  - rewrite (handleApplyCoupon_nonempty store now st Hne). cbn [afterAttempt queried].
    split; [now right |]. split; [intros [H | []]; congruence |].
    unfold validateCoupon.
    destruct (queryCoupon_cases store (trim (couponCode st)) now) as [(row & ->) | (m & ->)];
      cbn; repeat split.
    + left. eexists. split; reflexivity.
    + right. split; [reflexivity | eexists; reflexivity].
Qed.

(** X24.  Applying the same typed code again, against the same table at the
    same moment, changes nothing: the second attempt leaves the state the
    first one left, so a coupon is never applied twice over. *)
Theorem handleApplyCoupon_twice (store : CouponStore) (now : Date) (st : FormState) :
  handleApplyCoupon store now (afterAttempt (handleApplyCoupon store now st))
  = handleApplyCoupon store now st.
Proof.
  destruct (string_dec (trim (couponCode st)) EmptyString) as [He | Hne].
  - rewrite (handleApplyCoupon_empty store now st He). cbn [afterAttempt].
    rewrite handleApplyCoupon_empty by exact He. reflexivity.
  - rewrite (handleApplyCoupon_nonempty store now st Hne). cbn [afterAttempt].
    assert (couponCode (snd (validateCoupon store now (trim (couponCode st)) st))
            = couponCode st) as Hcode.
    { unfold validateCoupon.
      destruct (queryCoupon_cases store (trim (couponCode st)) now) as [(row & ->) | (m & ->)];
        reflexivity. }
    rewrite handleApplyCoupon_nonempty by (rewrite Hcode; exact Hne).
    rewrite Hcode. f_equal. unfold validateCoupon.
    destruct (queryCoupon_cases store (trim (couponCode st)) now) as [(row & ->) | (m & ->)];
      reflexivity.
Qed.

(** ** The coupon box and the day grid of BookingCalendar *)

(** X25.  In the calendar's coupon box the parent hears of every outcome of
    an attempt on a non-empty code, and hears exactly the coupon the box
    then shows: [onCouponApply], when given, is called once with the applied
    coupon or with [null]; for an empty code it is not called and the store
    is not asked.  After an attempt that asked, the box shows either a
    coupon and no error or an error and no coupon. *)
Theorem calendar_parent_hears_the_outcome
    (t : string -> string) (onCouponApply : bool)
    (store : CouponStore) (now : Date) (cal : BookingCalendar.CalendarState) :
  let r := BookingCalendar.validateCoupon t onCouponApply store now cal in
  let shown := BookingCalendar.appliedCoupon (BookingCalendar.afterAttempt r) in
  (trim (BookingCalendar.couponCode cal) = EmptyString ->
   BookingCalendar.queried r = [] /\ BookingCalendar.onCouponApply_calls r = []) /\
  (trim (BookingCalendar.couponCode cal) <> EmptyString ->
   BookingCalendar.queried r = [trim (BookingCalendar.couponCode cal)] /\
   BookingCalendar.onCouponApply_calls r = (if onCouponApply then [shown] else []) /\
   BookingCalendar.isValidatingCoupon (BookingCalendar.afterAttempt r) = false /\
   ((exists coupon, shown = Some coupon /\
                    BookingCalendar.couponError (BookingCalendar.afterAttempt r) = None) \/
    (shown = None /\
     BookingCalendar.couponError (BookingCalendar.afterAttempt r)
     = Some (t "coupon.invalid")))).
Proof.
  intros r shown. unfold shown, r, BookingCalendar.validateCoupon. split.
  - intros ->. split; reflexivity.
  - intro Hne. rewrite (proj2 (truthy_Some _) Hne). cbn [negb].
    unfold BookingCalendar.validateCoupon_response, BookingCalendar.notify.
    destruct (queryCoupon_cases store (trim (BookingCalendar.couponCode cal)) now)
      as [(row & ->) | (m & ->)]; cbn; repeat split.
    + left. eexists. split; reflexivity.
    + right. split; reflexivity.
Qed.

Lemma isPastDate_true_iff (today now day : Date) :
  dayNumber today = dayNumber now ->
  CalendarDays.isPastDate today now day = true <-> (dayNumber day < dayNumber today)%Z.
Proof.
  intro Hsame. unfold CalendarDays.isPastDate, CalendarDays.isPast.
  rewrite andb_true_iff, negb_true_iff, Z.ltb_lt.
  assert (isSameDay day today = false <-> dayNumber day <> dayNumber today) as ->.
  { pose proof (isSameDay_iff day today) as H.
    destruct (isSameDay day today); split; intro H'; try discriminate; try reflexivity.
    - exfalso. apply H'. now apply H.
    - intro E. apply H in E. discriminate. }
  split.
  - intros [Hlt Hne]. pose proof (dayNumber_mono day now ltac:(lia)). lia.
  - intro Hlt. split; [| lia].
    pose proof (lt_next_midnight day) as Hnext.
    assert (parseISO_day (dayNumber day + 1) <= now)%Z by (apply midnight_le_iff; lia).
    lia.
Qed.

(** X26.  As long as [today] and the clock are on the same calendar day, a
    day of the grid counts as past exactly when it is an earlier calendar
    day than today: today itself is never past, at whatever time of day. *)
Theorem isPastDate_iff_earlier_day (today now day : Date) :
  dayNumber today = dayNumber now ->
  CalendarDays.isPastDate today now day = true <-> (dayNumber day < dayNumber today)%Z.
Proof.
  intro Hsame. unfold CalendarDays.isPastDate, CalendarDays.isPast.
  rewrite andb_true_iff, negb_true_iff, Z.ltb_lt.
  assert (isSameDay day today = false <-> dayNumber day <> dayNumber today) as ->.
  { pose proof (isSameDay_iff day today) as H.
    destruct (isSameDay day today); split; intro H'; try discriminate; try reflexivity.
    - exfalso. apply H'. now apply H.
    - intro E. apply H in E. discriminate. }
  split.
  - intros [Hlt Hne]. pose proof (dayNumber_mono day now ltac:(lia)). lia.
  - intro Hlt. split; [| lia].
    pose proof (lt_next_midnight day) as Hnext.
    assert (parseISO_day (dayNumber day + 1) <= now)%Z by (apply midnight_le_iff; lia).
    lia.
Qed.

Lemma isPastDate_iff_earlier_day_witness :
  let today := (parseISO_day 19879 + 1000)%Z in
  let now := (parseISO_day 19879 + 1005)%Z in
  dayNumber today = dayNumber now /\
  CalendarDays.isPastDate today now (parseISO_day 19879) = false /\
  CalendarDays.isPastDate today now (parseISO_day 19878) = true.
Proof.
  intros today now.
  assert (dayNumber today = dayNumber now) as Hsame by reflexivity.
  split; [exact Hsame |]. split; [reflexivity |].
  apply (isPastDate_iff_earlier_day today now (parseISO_day 19878) Hsame).
  vm_compute. reflexivity.
Defined.

Lemma calendar_isDateBooked_false (props : CalendarDays.Props) (day : Date) :
  CalendarDays.isDateBooked props day = false <->
  forall booked, In booked (CalendarDays.bookedDates props) -> dayNumber booked <> dayNumber day.
Proof.
  unfold CalendarDays.isDateBooked. split.
  - intros H booked Hin E.
    assert (existsb (fun b => isSameDay b day) (CalendarDays.bookedDates props) = true) as Ht
      by (apply existsb_exists; exists booked; split; [exact Hin | now apply isSameDay_iff]).
    congruence.
  - intro H. destruct (existsb _ _) eqn:E; [| reflexivity].
    apply existsb_exists in E. destruct E as (b & Hin & Hs).
    apply isSameDay_iff in Hs. exfalso. exact (H b Hin Hs).
Qed.

(** X27.  A click on a day of the grid reaches the parent's [onDateSelect]
    exactly when the rules are accepted, no booked date falls on that
    calendar day and the day is not before today; it is then called once,
    with that day.  A click on such a day before the rules are accepted
    only raises the rules error; a click on a booked or past day does
    nothing at all.  The acceptance itself is never changed by a click. *)
Theorem day_click_reaches_parent
    (props : CalendarDays.Props) (today now : Date)
    (st : CalendarDays.RulesState) (day : Date) :
  dayNumber today = dayNumber now ->
  let r := CalendarDays.onDayClick props today now st day in
  let free := (forall booked, In booked (CalendarDays.bookedDates props) ->
                              dayNumber booked <> dayNumber day) /\
              (dayNumber today <= dayNumber day)%Z in
  (CalendarDays.onDateSelect_calls r = [day] <->
   CalendarDays.rulesAccepted st = true /\ free) /\
  (CalendarDays.onDateSelect_calls r = [] \/ CalendarDays.onDateSelect_calls r = [day]) /\
  CalendarDays.onRulesAcceptanceChange_calls r = [] /\
  CalendarDays.rulesAccepted (CalendarDays.cells r) = CalendarDays.rulesAccepted st /\
  (free -> CalendarDays.rulesAccepted st = false ->
   CalendarDays.showError (CalendarDays.cells r) = true) /\
  (~ free -> CalendarDays.cells r = st).
Proof.
  intros Hsame r free.
  assert (CalendarDays.isAvailable props today now day = true <-> free) as Hfree.
  { unfold CalendarDays.isAvailable, free.
    rewrite andb_true_iff, !negb_true_iff, calendar_isDateBooked_false.
    pose proof (isPastDate_true_iff today now day Hsame) as Hpast.
    destruct (CalendarDays.isPastDate today now day).
    - split; [intros [_ H]; discriminate | intros [_ H]].
      assert (dayNumber day < dayNumber today)%Z by now apply Hpast. lia.
    - split; [intros [H _]; split; [exact H |] | intros [H _]; now split].
      destruct (Z_lt_le_dec (dayNumber day) (dayNumber today)) as [Hlt | Hle]; [| exact Hle].
      apply Hpast in Hlt. discriminate. }
  unfold r, CalendarDays.onDayClick.
  change (negb (CalendarDays.isDateBooked props day)
          && negb (CalendarDays.isPastDate today now day))
    with (CalendarDays.isAvailable props today now day).
  destruct (CalendarDays.isAvailable props today now day).
  - assert free as Hf by now apply Hfree.
    unfold CalendarDays.handleDateSelect.
    destruct (CalendarDays.rulesAccepted st) eqn:Hacc; cbn.
    + split; [split; [intros _; now split | reflexivity] |].
      split; [now right |]. split; [reflexivity |]. split; [exact Hacc |].
      split; [intros _ H; congruence | intro H; contradiction].
    + split; [split; [discriminate | intros [H _]; congruence] |].
      split; [now left |]. split; [reflexivity |]. split; [reflexivity |].
      split; [reflexivity | intro H; contradiction].
  - assert (~ free) as Hnf by (intro Hf; apply Hfree in Hf; discriminate).
    cbn. split; [split; [discriminate | intros [_ H]; contradiction] |].
    split; [now left |]. split; [reflexivity |]. split; [reflexivity |].
    split; [intro H; contradiction | reflexivity].
Qed.

Lemma day_click_reaches_parent_witness :
  let props := {| CalendarDays.bookedDates := [parseISO_day 19876];
                  CalendarDays.has_onRulesAcceptanceChange := true |} in
  let today := (parseISO_day 19870 + 1000)%Z in
  let st := CalendarDays.cells (CalendarDays.handleRulesAcceptanceChange props true
              {| CalendarDays.rulesAccepted := false; CalendarDays.showError := true |}) in
  dayNumber today = dayNumber today /\
  CalendarDays.onDateSelect_calls
    (CalendarDays.onDayClick props today today st (parseISO_day 19879))
  = [parseISO_day 19879].
Proof.
  intros props today st. split; [reflexivity |].
  apply (day_click_reaches_parent props today today st (parseISO_day 19879) eq_refl).
  split; [reflexivity |]. split.
  - intros booked [<- | []]. vm_compute. discriminate.
  - vm_compute. discriminate.
Defined.


(** ** A successful load *)

(** X28.  A load that succeeds rebuilds the booked dates from the rows
    alone: what was booked before is dropped, every other cell of the
    state is left as it was, and each booked date is the midnight of its
    day; with no rows nothing is booked. *)
Theorem successful_load_rebuilds_booked_dates (rows : list BookingRow) (st : FormState) :
  Forall wellFormed rows ->
  exists dates,
    fetchBookedDates (loaded rows) st = setBookedDates dates st /\
    (forall st2, bookedDates (fetchBookedDates (loaded rows) st2) = dates) /\
    (forall booked, In booked dates -> startOfDay booked = booked) /\
    (rows = [] -> dates = []).
Proof.
  intro Hwf. destruct (pushAllDays_In rows [] Hwf) as (all & Hall & _).
  exists (map parseISO_day (newSet (map format_yyyy_MM_dd all))).
  assert (forall s, fetchBookedDates (loaded rows) s
                    = setBookedDates (map parseISO_day (newSet (map format_yyyy_MM_dd all))) s)
    as Hrun.
  { intro s. unfold fetchBookedDates, fetchBookedDates_try, loaded. cbn [error data].
    rewrite Hall. reflexivity. }
  split; [apply Hrun |]. split; [intro st2; now rewrite Hrun |]. split.
  - intros booked Hin. apply in_map_iff in Hin. destruct Hin as (k & <- & _).
    unfold startOfDay. now rewrite dayNumber_midnight.
  - intros ->. cbn in Hall. injection Hall as <-. reflexivity.
Qed.

Lemma successful_load_rebuilds_booked_dates_witness :
  let rows := [ {| check_in := parseISO_day 19875 + 54000000;
                   check_out := parseISO_day 19876 + 39600000 |};
                {| check_in := parseISO_day 19876; check_out := parseISO_day 19877 |} ] in
  let st := setBookedDates [parseISO_day 19000]
              (initialState {| id := "a1"; name := "Gintaras"; price_per_night := 100 |}) in
  Forall wellFormed rows /\
  bookedDates (fetchBookedDates (loaded rows) st)
  = [parseISO_day 19875; parseISO_day 19876; parseISO_day 19877].
Proof.
  intros rows st.
  assert (Forall wellFormed rows) as Hwf
    by (repeat constructor; unfold wellFormed; vm_compute; discriminate).
  split; [exact Hwf |].
  destruct (successful_load_rebuilds_booked_dates rows st Hwf) as (dates & Hrun & _).
  rewrite Hrun. cbn [setBookedDates bookedDates].
  assert (bookedDates (fetchBookedDates (loaded rows) st) = dates) as <-
    by (now rewrite Hrun).
  vm_compute. reflexivity.
Defined.
